(** * The VECM forecaster adapter of sktime (sktime/forecasting/vecm.py)

    A shallow embedding of the class [VECM]: its constructor, [_fit],
    [_predict], [_predict_interval] and [get_test_params], with the parts of
    numpy and pandas those methods go through (row selection with negative
    indices, concatenation, label-aligned subtraction, the shape check of the
    frame constructor) and the statsmodels estimator as an opaque delegate.

    Numbers are binary64 floats, as in Python; tables are lists of rows. *)

From Stdlib Require Import ZArith List String Bool Lia PrimFloat.
Import ListNotations.
Open Scope string_scope.
Open Scope list_scope.
Open Scope Z_scope.

(** ** Exceptions and results *)

Inductive exn : Type :=
| NotFittedError
| AttributeError
| IndexError
| ValueError
| TypeError
| DelegateError (msg : string).

Inductive result (A : Type) : Type :=
| Ok (a : A)
| Err (e : exn).
Arguments Ok {A} a.
Arguments Err {A} e.

Definition rbind {A B} (r : result A) (k : A -> result B) : result B :=
  match r with
  | Ok a => k a
  | Err e => Err e
  end.

Notation "x <-? e ;; k" := (rbind e (fun x => k))
  (at level 61, e at next level, right associativity).

Fixpoint mapR {A B} (f : A -> result B) (l : list A) : result (list B) :=
  match l with
  | [] => Ok []
  | x :: t => y <-? f x ;; ys <-? mapR f t ;; Ok (y :: ys)
  end.

(** ** numpy: two-dimensional arrays *)

Module np.

(** A 2-D array: its rows, and the number of columns (kept apart so that an
    array with no row still has a shape). *)
Record ndarray : Type := mk_ndarray { ncols : nat; rows : list (list float) }.

Definition nrows (a : ndarray) : nat := List.length (rows a).

(** The position an index [i] denotes in a sequence of [n] elements: [i]
    itself when [0 <= i < n], [n + i] when [-n <= i < 0], IndexError
    otherwise. *)
Definition norm_index (n : nat) (i : Z) : result nat :=
  if (0 <=? i) && (i <? Z.of_nat n) then Ok (Z.to_nat i)
  else if (- Z.of_nat n <=? i) && (i <? 0) then Ok (Z.to_nat (Z.of_nat n + i))
  else Err IndexError.

(** [xs[i]] on a sequence. *)
Definition item {A} (xs : list A) (i : Z) : result A :=
  p <-? norm_index (List.length xs) i ;;
  match nth_error xs p with
  | Some x => Ok x
  | None => Err IndexError
  end.

(** [a[i]]: the i-th row. *)
Definition row (a : ndarray) (i : Z) : result (list float) := item (rows a) i.

(** [a[idx, :]] for a list of row indices. *)
Definition take (a : ndarray) (idx : list Z) : result ndarray :=
  rs <-? mapR (row a) idx ;;
  Ok {| ncols := ncols a; rows := rs |}.

(** [np.concatenate([a, b], axis=0)]. *)
Definition concatenate (a b : ndarray) : result ndarray :=
  if Nat.eqb (ncols a) (ncols b)
  then Ok {| ncols := ncols a; rows := rows a ++ rows b |}
  else Err ValueError.

End np.

(** ** pandas: labelled tables *)

Module pd.

(** Axis labels: integers, strings, and time periods (by ordinal). *)
Inductive label : Type :=
| LInt (z : Z)
| LStr (s : string)
| LPeriod (ordinal : Z).

Definition label_eqb (a b : label) : bool :=
  match a, b with
  | LInt x, LInt y => x =? y
  | LStr x, LStr y => String.eqb x y
  | LPeriod x, LPeriod y => x =? y
  | _, _ => false
  end.

Definition same_kind (a b : label) : bool :=
  match a, b with
  | LInt _, LInt _ | LStr _, LStr _ | LPeriod _, LPeriod _ => true
  | _, _ => false
  end.

Definition label_leb (a b : label) : bool :=
  match a, b with
  | LInt x, LInt y => x <=? y
  | LStr x, LStr y => String.leb x y
  | LPeriod x, LPeriod y => x <=? y
  | _, _ => true
  end.

Fixpoint labels_eqb (a b : list label) : bool :=
  match a, b with
  | [], [] => true
  | x :: a', y :: b' => label_eqb x y && labels_eqb a' b'
  | _, _ => false
  end.

Definition mem (x : label) (l : list label) : bool := existsb (label_eqb x) l.

Fixpoint position (x : label) (l : list label) : option nat :=
  match l with
  | [] => None
  | y :: t => if label_eqb x y then Some O else option_map S (position x t)
  end.

Fixpoint insert_sorted (x : label) (l : list label) : list label :=
  match l with
  | [] => [x]
  | y :: t => if label_leb x y then x :: l else y :: insert_sorted x t
  end.

Definition sort_labels (l : list label) : list label :=
  fold_right insert_sorted [] l.

Definition comparable (l : list label) : bool :=
  match l with
  | [] => true
  | x :: t => forallb (same_kind x) t
  end.

(** The outer join of two axes, as the alignment of a binary operation
    forms it: an axis equal to the other is kept as it is; otherwise the
    union of the labels, sorted when the labels can be compared and in
    order of appearance when they cannot. *)
Definition union (a b : list label) : list label :=
  if labels_eqb a b then a
  else
    let u := a ++ filter (fun x => negb (mem x a)) b in
    if comparable u then sort_labels u else u.

Record Index : Type := mk_Index { labels : list label; name : option string }.

(** [index.name = n]. *)
Definition set_name (i : Index) (n : option string) : Index :=
  {| labels := labels i; name := n |}.

(** [pd.RangeIndex(n)]: the default axis 0, 1, ..., n-1. *)
Definition RangeIndex (n : nat) : list label :=
  map (fun i => LInt (Z.of_nat i)) (seq 0 n).

(** A table whose column labels are of type [C] (plain labels for a
    series table, triples for a three-level column index). *)
Record DataFrame (C : Type) : Type := mk_DataFrame {
  index : Index;
  columns : list C;
  values : list (list float)
}.
Arguments mk_DataFrame {C}.
Arguments index {C}.
Arguments columns {C}.
Arguments values {C}.

(** [df.values]. *)
Definition to_numpy {C} (d : DataFrame C) : np.ndarray :=
  {| np.ncols := List.length (columns d); np.rows := values d |}.

(** [pd.DataFrame(data, index=index, columns=columns)]: ValueError when the
    shape of [data] is not (len(index), len(columns)). *)
Definition DataFrame_ {C} (data : np.ndarray) (idx : Index) (cols : list C)
  : result (DataFrame C) :=
  if Nat.eqb (np.nrows data) (List.length (labels idx))
     && Nat.eqb (np.ncols data) (List.length cols)
  then Ok {| index := idx; columns := cols; values := np.rows data |}
  else Err ValueError.

(** [pd.DataFrame(data, index=index, columns=columns)] for [data] a nested
    list of rows (not an array).  No row at all gives a frame of NaN over the
    given axes.  Otherwise the rows are padded with NaN to the longest one,
    whose length must be the number of columns; a single row is repeated over
    the whole index, and several rows must be as many as the index has
    labels.  ValueError in the other cases. *)
Definition DataFrame_of_rows {C} (data : list (list float)) (idx : Index)
           (cols : list C) : result (DataFrame C) :=
  let n := List.length (labels idx) in
  let w := List.length cols in
  let frame := fun vs => {| index := idx; columns := cols; values := vs |} in
  match data with
  | [] => Ok (frame (repeat (repeat nan w) n))
  | _ :: _ =>
      if Nat.eqb (list_max (map (@List.length float) data)) w then
        let rows :=
          map (fun r => r ++ repeat nan (w - List.length r)) data in
        match rows with
        | [r] => Ok (frame (repeat r n))
        | _ => if Nat.eqb (List.length rows) n then Ok (frame rows)
               else Err ValueError
        end
      else Err ValueError
  end.

(** [pd.DataFrame(data)] for a bare array: default labels on both axes. *)
Definition DataFrame_of_array (data : np.ndarray) : DataFrame label :=
  {| index := {| labels := RangeIndex (np.nrows data); name := None |};
     columns := RangeIndex (np.ncols data);
     values := np.rows data |}.

(** The cell at row label [r] and column label [c], if both exist. *)
Definition cell (d : DataFrame label) (r c : label) : option float :=
  match position r (labels (index d)), position c (columns d) with
  | Some i, Some j => nth_error (nth i (values d) []) j
  | _, _ => None
  end.

Definition opt_string_eqb (a b : option string) : bool :=
  match a, b with
  | None, None => true
  | Some x, Some y => String.eqb x y
  | _, _ => false
  end.

(** [a - b] on tables: both axes are aligned by label (outer join), and a
    cell missing on either side is NaN. *)
Definition sub (a b : DataFrame label) : DataFrame label :=
  let ri := union (labels (index a)) (labels (index b)) in
  let ci := union (columns a) (columns b) in
  {| index := {| labels := ri;
                 name := if opt_string_eqb (name (index a)) (name (index b))
                         then name (index a) else None |};
     columns := ci;
     values :=
       map (fun r =>
              map (fun c =>
                     match cell a r c, cell b r c with
                     | Some x, Some y => PrimFloat.sub x y
                     | _, _ => nan
                     end) ci) ri |}.

(** What [MultiIndex.from_product] is given as its first level: a list of
    labels, or a bare string (then it raises: a string is not list-like). *)
Inductive level_arg : Type :=
| Labels (ls : list label)
| Str (s : string).

(** [pd.MultiIndex.from_product([l1, l2, l3])]: the triples in nested
    order, the last level varying fastest. *)
Definition product3 {A B C} (l1 : list A) (l2 : list B) (l3 : list C)
  : list (A * B * C) :=
  flat_map (fun a => flat_map (fun b => map (fun c => (a, b, c)) l3) l2) l1.

Definition MultiIndex_from_product {B C}
           (l1 : level_arg) (l2 : list B) (l3 : list C)
  : result (list (label * B * C)) :=
  match l1 with
  | Labels ls => Ok (product3 ls l2 l3)
  | Str _ => Err TypeError
  end.

End pd.

(** ** The forecasting horizon *)

(** The class [ForecastingHorizon] lives in sktime/forecasting/base and is
    not among the sources; it is modelled from the spec.  The spec describes
    a horizon as "an ordered set of integer offsets relative to a cutoff time
    point; may include non-positive offsets (in-sample) and positive offsets
    (out-of-sample)", its absolute index as the "absolute time labels derived
    from the horizon", and the row selection as "exactly the rows matching the
    requested horizon positions".  An offset [k > 0] is the k-th step ahead,
    hence row [k - 1] of a forecast of [steps] rows; an offset [k <= 0] gives
    the negative row index [k - 1], counted from the end of the training
    rows. *)
Module ForecastingHorizon.

Definition t : Type := list Z.

(** Modelled from the spec: the invariant of a horizon, "an ordered set":
    not empty, offsets strictly increasing (so without repetition). *)
Fixpoint increasing (fh : t) : bool :=
  match fh with
  | [] => true
  | x :: r => match r with
              | [] => true
              | y :: _ => (x <? y) && increasing r
              end
  end.

Definition valid (fh : t) : bool :=
  negb (Nat.eqb (List.length fh) 0) && increasing fh.

(** Modelled from the spec: [fh.to_relative(cutoff)], the "relative-to-cutoff
    integer offsets", which are the horizon's own. *)
Definition to_relative (fh : t) (cutoff : option pd.label) : t := fh.

(** Modelled from the spec: [fh.max()], the largest offset; ValueError on an
    empty horizon. *)
Definition max (fh : t) : result Z :=
  match fh with
  | [] => Err ValueError
  | x :: r => Ok (fold_left Z.max r x)
  end.

(** Modelled from the spec: [fh.min()], the smallest offset. *)
Definition min (fh : t) : result Z :=
  match fh with
  | [] => Err ValueError
  | x :: r => Ok (fold_left Z.min r x)
  end.

(** Modelled from the spec: [fh[i]], the offset at position [i] (a negative
    position counts from the end). *)
Definition getitem (fh : t) (i : Z) : result Z := np.item fh i.

(** Modelled from the spec: the time label [k] steps after the label [c]
    (integer and period labels move; a string is no time point). *)
Definition shift (c : pd.label) (k : Z) : pd.label :=
  match c with
  | pd.LInt z => pd.LInt (z + k)
  | pd.LPeriod p => pd.LPeriod (p + k)
  | pd.LStr s => pd.LStr s
  end.

(** Modelled from the spec: [fh.to_absolute_index(cutoff)], one absolute
    label per offset, in the order of the offsets; ValueError without a
    cutoff. *)
Definition to_absolute_index (fh : t) (cutoff : option pd.label)
  : result pd.Index :=
  match cutoff with
  | Some c => Ok {| pd.labels := map (shift c) fh; pd.name := None |}
  | None => Err ValueError
  end.

(** Modelled from the spec: [fh.to_indexer(cutoff)], the zero-based row
    positions of the requested offsets, each offset minus one. *)
Definition to_indexer (fh : t) (cutoff : option pd.label) : list Z :=
  map (fun k => k - 1) fh.

End ForecastingHorizon.

(** ** The delegate: statsmodels' VECM *)

(** Python values a configuration option can hold. *)
Inductive pyobj : Type :=
| PyNone
| PyInt (z : Z)
| PyFloat (f : float)
| PyStr (s : string)
| PyArray (a : np.ndarray).

Module statsmodels.

(** The fitted result: [predict(steps, exog_fc, exog_coint_fc)] returns the
    point forecast, one row per step; with [alpha] it returns the triple
    (point, lower, upper); [resid] is the array of residuals. *)
Record VECMResults : Type := mk_VECMResults {
  predict : Z -> option np.ndarray -> pyobj -> result np.ndarray;
  predict_alpha :
    Z -> option np.ndarray -> pyobj -> float
    -> result (np.ndarray * np.ndarray * np.ndarray);
  resid : np.ndarray
}.

(** The model object: [fit(method)] returns the fitted result or raises. *)
Record VECM : Type := mk_VECM {
  fit : pyobj -> result VECMResults
}.

(** The keyword arguments of the model's constructor. *)
Record kwargs : Type := mk_kwargs {
  endog : pd.DataFrame pd.label;
  exog : option (pd.DataFrame pd.label);
  kw_exog_coint : pyobj;
  kw_dates : pyobj;
  kw_freq : pyobj;
  kw_missing : pyobj;
  kw_k_ar_diff : pyobj;
  kw_coint_rank : pyobj;
  kw_deterministic : pyobj;
  kw_seasons : pyobj;
  kw_first_season : pyobj
}.

End statsmodels.

(** ** Calls to the delegate's forecast routine, and the monad that logs them *)

Inductive call : Type :=
| PredictCall (steps : Z) (exog_fc : option np.ndarray) (exog_coint_fc : pyobj)
              (alpha : option float).

(** A computation that may raise and that records, in order, the calls it
    made to the delegate's [predict]. *)
Definition M (A : Type) : Type := (list call * result A)%type.

Definition ret {A} (a : A) : M A := ([], Ok a).

Definition lift {A} (r : result A) : M A := ([], r).

Definition bind {A B} (m : M A) (k : A -> M B) : M B :=
  match m with
  | (l, Ok a) => let (l', r) := k a in (l ++ l', r)
  | (l, Err e) => (l, Err e)
  end.

Notation "x <- e ;; k" := (bind e (fun x => k))
  (at level 61, e at next level, right associativity).

Definition calls {A} (m : M A) : list call := fst m.
Definition outcome {A} (m : M A) : result A := snd m.

Definition call_predict (r : statsmodels.VECMResults) (steps : Z)
           (exog_fc : option np.ndarray) (exog_coint_fc : pyobj)
  : M np.ndarray :=
  ([PredictCall steps exog_fc exog_coint_fc None],
   statsmodels.predict r steps exog_fc exog_coint_fc).

Definition call_predict_alpha (r : statsmodels.VECMResults) (steps : Z)
           (exog_fc : option np.ndarray) (exog_coint_fc : pyobj) (alpha : float)
  : M (np.ndarray * np.ndarray * np.ndarray) :=
  ([PredictCall steps exog_fc exog_coint_fc (Some alpha)],
   statsmodels.predict_alpha r steps exog_fc exog_coint_fc alpha).

(** An attribute that is [None] when something is taken from it. *)
Definition require {A} (e : exn) (o : option A) : result A :=
  match o with
  | Some a => Ok a
  | None => Err e
  end.

(** ** The adapter *)

(** An instance of the class: the eleven configuration options, and the
    state the base classes and [_fit] keep ([_is_fitted], [_y] and [cutoff]
    are the base forecaster's, set by [fit]). *)
Record VECM : Type := mk_VECM {
  dates : pyobj;
  freq : pyobj;
  missing : pyobj;
  k_ar_diff : pyobj;
  coint_rank : pyobj;
  deterministic : pyobj;
  seasons : pyobj;
  first_season : pyobj;
  method : pyobj;
  exog_coint : pyobj;
  exog_coint_fc : pyobj;
  _is_fitted : bool;
  _y : option (pd.DataFrame pd.label);
  cutoff : option pd.label;
  _forecaster : option statsmodels.VECM;
  _fitted_forecaster : option statsmodels.VECMResults
}.

(** The configuration of an instance, as the tuple of its eleven options. *)
Definition config (self : VECM) :=
  (dates self, freq self, missing self, k_ar_diff self, coint_rank self,
   deterministic self, seasons self, first_season self, method self,
   exog_coint self, exog_coint_fc self).

(** [VECM.__init__]: every option stored as given; [super().__init__()]
    leaves the instance unfitted. *)
Definition __init__
           (dates freq missing k_ar_diff coint_rank deterministic seasons
            first_season method exog_coint exog_coint_fc : pyobj) : VECM :=
  {| dates := dates;
     freq := freq;
     missing := missing;
     k_ar_diff := k_ar_diff;
     coint_rank := coint_rank;
     deterministic := deterministic;
     seasons := seasons;
     first_season := first_season;
     method := method;
     exog_coint := exog_coint;
     exog_coint_fc := exog_coint_fc;
     _is_fitted := false;
     _y := None;
     cutoff := None;
     _forecaster := None;
     _fitted_forecaster := None |}.

(** [self._forecaster = m]. *)
Definition set__forecaster (self : VECM) (m : statsmodels.VECM) : VECM :=
  {| dates := dates self; freq := freq self; missing := missing self;
     k_ar_diff := k_ar_diff self; coint_rank := coint_rank self;
     deterministic := deterministic self; seasons := seasons self;
     first_season := first_season self; method := method self;
     exog_coint := exog_coint self; exog_coint_fc := exog_coint_fc self;
     _is_fitted := _is_fitted self; _y := _y self; cutoff := cutoff self;
     _forecaster := Some m;
     _fitted_forecaster := _fitted_forecaster self |}.

(** [self._fitted_forecaster = r]. *)
Definition set__fitted_forecaster (self : VECM) (r : statsmodels.VECMResults)
  : VECM :=
  {| dates := dates self; freq := freq self; missing := missing self;
     k_ar_diff := k_ar_diff self; coint_rank := coint_rank self;
     deterministic := deterministic self; seasons := seasons self;
     first_season := first_season self; method := method self;
     exog_coint := exog_coint self; exog_coint_fc := exog_coint_fc self;
     _is_fitted := _is_fitted self; _y := _y self; cutoff := cutoff self;
     _forecaster := _forecaster self;
     _fitted_forecaster := Some r |}.

(** Modelled from the spec: the base forecaster's "cutoff/state
    bookkeeping" (the base class is not among the sources).  The training
    table is kept in [_y] and its last time label becomes the cutoff. *)
Definition set__y (self : VECM) (y : pd.DataFrame pd.label) : VECM :=
  {| dates := dates self; freq := freq self; missing := missing self;
     k_ar_diff := k_ar_diff self; coint_rank := coint_rank self;
     deterministic := deterministic self; seasons := seasons self;
     first_season := first_season self; method := method self;
     exog_coint := exog_coint self; exog_coint_fc := exog_coint_fc self;
     _is_fitted := _is_fitted self;
     _y := Some y;
     cutoff := List.last (map Some (pd.labels (pd.index y))) None;
     _forecaster := _forecaster self;
     _fitted_forecaster := _fitted_forecaster self |}.

(** Modelled from the spec: the base forecaster's fitted flag. *)
Definition set__is_fitted (self : VECM) (b : bool) : VECM :=
  {| dates := dates self; freq := freq self; missing := missing self;
     k_ar_diff := k_ar_diff self; coint_rank := coint_rank self;
     deterministic := deterministic self; seasons := seasons self;
     first_season := first_season self; method := method self;
     exog_coint := exog_coint self; exog_coint_fc := exog_coint_fc self;
     _is_fitted := b; _y := _y self; cutoff := cutoff self;
     _forecaster := _forecaster self;
     _fitted_forecaster := _fitted_forecaster self |}.

(** [VECM._predict], up to the array [y_pred] that the final row selection
    reads: the out-of-sample forecast, the in-sample reconstruction, and
    their concatenation when both were computed. *)
Definition y_pred_of (self : VECM) (fh : ForecastingHorizon.t)
           (X : option (pd.DataFrame pd.label)) : M (option np.ndarray) :=
  let exog_fc := option_map pd.to_numpy X in
  let fh_int := ForecastingHorizon.to_relative fh (cutoff self) in
  (* out-sample prediction *)
  mx <- lift (ForecastingHorizon.max fh_int) ;;
  y_pred_outsample <-
    (if mx >? 0 then
       fitted <- lift (require AttributeError (_fitted_forecaster self)) ;;
       steps <- lift (ForecastingHorizon.getitem fh_int (-1)) ;;
       out <- call_predict fitted steps exog_fc (exog_coint_fc self) ;;
       ret (Some out)
     else ret None) ;;
  (* in-sample prediction by means of residuals *)
  mn <- lift (ForecastingHorizon.min fh_int) ;;
  y_pred_insample <-
    (if mn <=? 0 then
       (* the right operand, [self._fitted_forecaster.resid], is what can
          raise first; the operator itself comes last *)
       fitted <- lift (require AttributeError (_fitted_forecaster self)) ;;
       y <- lift (require TypeError (_y self)) ;;
       let d := pd.sub y (pd.DataFrame_of_array (statsmodels.resid fitted)) in
       ret (Some (pd.to_numpy d))
     else ret None) ;;
  lift (match y_pred_insample, y_pred_outsample with
        | Some ins, Some outs =>
            a <-? np.concatenate outs ins ;; Ok (Some a)
        | Some ins, None => Ok (Some ins)
        | None, outs => Ok outs
        end).

(** [VECM._predict]. *)
Definition _predict (self : VECM) (fh : ForecastingHorizon.t)
           (X : option (pd.DataFrame pd.label)) : M (pd.DataFrame pd.label) :=
  y_pred <- y_pred_of self fh X ;;
  index <- lift (ForecastingHorizon.to_absolute_index fh (cutoff self)) ;;
  y <- lift (require AttributeError (_y self)) ;;
  let index := pd.set_name index (pd.name (pd.index y)) in
  a <- lift (require TypeError y_pred) ;;
  sel <- lift (np.take a (ForecastingHorizon.to_indexer fh (cutoff self))) ;;
  lift (pd.DataFrame_ sel index (pd.columns y)).

(** The inner loop of [_predict_interval]: for each variable position, the
    lower bound [y_lower[0][v_idx]] and then the upper bound
    [y_upper[0][v_idx]]. *)
Fixpoint bounds_at (y_lower y_upper : np.ndarray) (v_idxs : list nat)
  : result (list float) :=
  match v_idxs with
  | [] => Ok []
  | v_idx :: rest =>
      l0 <-? np.row y_lower 0 ;;
      lo <-? np.item l0 (Z.of_nat v_idx) ;;
      u0 <-? np.row y_upper 0 ;;
      up <-? np.item u0 (Z.of_nat v_idx) ;;
      values <-? bounds_at y_lower y_upper rest ;;
      Ok (lo :: up :: values)
  end.

(** [len(var_names)]. *)
Definition level_len (v : pd.level_arg) : nat :=
  match v with
  | pd.Labels ls => List.length ls
  | pd.Str s => String.length s
  end.

(** The body of the loop over the coverage values. *)
Definition interval_body (self : VECM) (fh_int : ForecastingHorizon.t)
           (exog_fc : option np.ndarray) (var_names : pd.level_arg) (c : float)
  : M (list float) :=
  let alpha := PrimFloat.sub 1 c in
  fitted <- lift (require AttributeError (_fitted_forecaster self)) ;;
  steps <- lift (ForecastingHorizon.getitem fh_int (-1)) ;;
  r <- call_predict_alpha fitted steps exog_fc (exog_coint_fc self) alpha ;;
  let '(_, y_lower, y_upper) := r in
  lift (bounds_at y_lower y_upper (seq 0 (level_len var_names))).

(** The call the loop body makes for the coverage value [c]. *)
Definition interval_call (self : VECM) (steps : Z)
           (X : option (pd.DataFrame pd.label)) (c : float) : call :=
  PredictCall steps (option_map pd.to_numpy X) (exog_coint_fc self)
              (Some (PrimFloat.sub 1 c)).

(** [for c in coverage: ...; all_values.extend(values)]. *)
Fixpoint interval_loop (body : float -> M (list float)) (coverage : list float)
         (all_values : list float) : M (list float) :=
  match coverage with
  | [] => ret all_values
  | c :: rest =>
      values <- body c ;;
      interval_loop body rest (all_values ++ values)
  end.

(** The variable level of the interval table's columns: the name of the
    training index when it has one, the training columns otherwise. *)
Definition var_names_of (y : pd.DataFrame pd.label) : pd.level_arg :=
  match pd.name (pd.index y) with
  | Some s => pd.Str s
  | None => pd.Labels (pd.columns y)
  end.

Definition int_idx_of (y : pd.DataFrame pd.label) (coverage : list float)
  : result (list (pd.label * float * string)) :=
  pd.MultiIndex_from_product (var_names_of y) coverage ["lower"; "upper"].

(** [VECM._predict_interval], up to the arguments of the final
    [pd.DataFrame([all_values], index=..., columns=int_idx)]. *)
Definition interval_frame_args (self : VECM) (fh : ForecastingHorizon.t)
           (X : option (pd.DataFrame pd.label)) (coverage : list float)
  : M (list (list float) * pd.Index * list (pd.label * float * string)) :=
  let exog_fc := option_map pd.to_numpy X in
  let fh_int := ForecastingHorizon.to_relative fh (cutoff self) in
  y <- lift (require AttributeError (_y self)) ;;
  let var_names := var_names_of y in
  int_idx <- lift (int_idx_of y coverage) ;;
  all_values <-
    interval_loop (interval_body self fh_int exog_fc var_names) coverage [] ;;
  index <- lift (ForecastingHorizon.to_absolute_index fh (cutoff self)) ;;
  ret ([all_values], index, int_idx).

(** [VECM._predict_interval]. *)
Definition _predict_interval (self : VECM) (fh : ForecastingHorizon.t)
           (X : option (pd.DataFrame pd.label)) (coverage : list float)
  : M (pd.DataFrame (pd.label * float * string)) :=
  args <- interval_frame_args self fh X coverage ;;
  let '(data, index, int_idx) := args in
  lift (pd.DataFrame_of_rows data index int_idx).

(** [VECM.get_test_params]. *)
Definition dict : Type := list (string * pyobj).

Definition get_test_params (parameter_set : string) : list dict :=
  let params1 : dict := [] in
  let params2 : dict := [("k_ar_diff", PyInt 2)] in
  [params1; params2].

(** The call of the class with [params] unpacked as keyword arguments: each
    keyword bound to the parameter of that name, the others at their
    defaults; TypeError on a keyword that is no parameter. *)
Definition param_names : list string :=
  ["dates"; "freq"; "missing"; "k_ar_diff"; "coint_rank"; "deterministic";
   "seasons"; "first_season"; "method"; "exog_coint"; "exog_coint_fc"].

Fixpoint kwarg (params : dict) (key : string) (default : pyobj) : pyobj :=
  match params with
  | [] => default
  | (k, v) :: rest => if String.eqb k key then v else kwarg rest key default
  end.

Definition construct (params : dict) : result VECM :=
  if forallb (fun kv => existsb (String.eqb (fst kv)) param_names) params
  then Ok (__init__ (kwarg params "dates" PyNone)
                    (kwarg params "freq" PyNone)
                    (kwarg params "missing" (PyStr "none"))
                    (kwarg params "k_ar_diff" (PyInt 1))
                    (kwarg params "coint_rank" (PyInt 1))
                    (kwarg params "deterministic" (PyStr "n"))
                    (kwarg params "seasons" (PyInt 0))
                    (kwarg params "first_season" (PyInt 0))
                    (kwarg params "method" (PyStr "ml"))
                    (kwarg params "exog_coint" PyNone)
                    (kwarg params "exog_coint_fc" PyNone))
  else Err TypeError.

Section Delegate.

(** The constructor of statsmodels' model class, imported as [_VECM]. *)
Variable _VECM : statsmodels.kwargs -> result statsmodels.VECM.

(** [VECM._fit]: the instance after the call, and how the call ended. *)
Definition _fit (self : VECM) (y : pd.DataFrame pd.label)
           (fh : option ForecastingHorizon.t)
           (X : option (pd.DataFrame pd.label)) : VECM * result unit :=
  match _VECM {| statsmodels.endog := y;
                 statsmodels.exog := X;
                 statsmodels.kw_exog_coint := exog_coint self;
                 statsmodels.kw_dates := dates self;
                 statsmodels.kw_freq := freq self;
                 statsmodels.kw_missing := missing self;
                 statsmodels.kw_k_ar_diff := k_ar_diff self;
                 statsmodels.kw_coint_rank := coint_rank self;
                 statsmodels.kw_deterministic := deterministic self;
                 statsmodels.kw_seasons := seasons self;
                 statsmodels.kw_first_season := first_season self |} with
  | Err e => (self, Err e)
  | Ok m =>
      let self1 := set__forecaster self m in
      match statsmodels.fit m (method self1) with
      | Err e => (self1, Err e)
      | Ok r => (set__fitted_forecaster self1 r, Ok tt)
      end
  end.

(** Modelled from the spec: the public [fit] of the base forecaster (not
    among the sources), which "handl[es] input validation, type coercion,
    and cutoff/state bookkeeping": it records the training table and its
    last time label as the cutoff, runs [_fit], and marks the instance
    fitted when [_fit] returned. *)
Definition fit (self : VECM) (y : pd.DataFrame pd.label)
           (X : option (pd.DataFrame pd.label)) : VECM * result unit :=
  let self0 := set__y (set__is_fitted self false) y in
  match _fit self0 y None X with
  | (self1, Ok _) => (set__is_fitted self1 true, Ok tt)
  | (self1, Err e) => (self1, Err e)
  end.

End Delegate.

(** Modelled from the spec: the fitted-state check of the base forecaster
    (not among the sources).  "The fitted state must exist before any
    prediction operation; violating this must fail with a not-fitted
    error." *)
Definition check_is_fitted (self : VECM) : result unit :=
  if _is_fitted self then Ok tt else Err NotFittedError.

(** Modelled from the spec: the public [predict], the fitted-state check
    followed by [_predict]. *)
Definition predict (self : VECM) (fh : ForecastingHorizon.t)
           (X : option (pd.DataFrame pd.label)) : M (pd.DataFrame pd.label) :=
  _ <- lift (check_is_fitted self) ;;
  _predict self fh X.

(** Modelled from the spec: the public [predict_interval], the fitted-state
    check followed by [_predict_interval]. *)
Definition predict_interval (self : VECM) (fh : ForecastingHorizon.t)
           (X : option (pd.DataFrame pd.label)) (coverage : list float)
  : M (pd.DataFrame (pd.label * float * string)) :=
  _ <- lift (check_is_fitted self) ;;
  _predict_interval self fh X coverage.

(** ** A small concrete delegate and training tables, for running the model *)

Module Toy.

Definition point : list (list float) :=
  [[2; 3]; [20; 30]; [200; 300]; [2000; 3000]]%float.
Definition lower : list (list float) :=
  [[1; 2]; [10; 20]; [100; 200]; [1000; 2000]]%float.
Definition upper : list (list float) :=
  [[3; 4]; [30; 40]; [300; 400]; [3000; 4000]]%float.

(** The first [steps] rows of a table of four steps. *)
Definition steps_of (table : list (list float)) (steps : Z)
  : result np.ndarray :=
  if (0 <? steps) && (steps <=? 4)
  then Ok {| np.ncols := 2; np.rows := firstn (Z.to_nat steps) table |}
  else Err (DelegateError "steps").

Definition results : statsmodels.VECMResults :=
  {| statsmodels.predict := fun steps _ _ => steps_of point steps;
     statsmodels.predict_alpha :=
       fun steps _ _ _ =>
         p <-? steps_of point steps ;;
         l <-? steps_of lower steps ;;
         u <-? steps_of upper steps ;;
         Ok (p, l, u);
     statsmodels.resid :=
       {| np.ncols := 2;
          np.rows := [[0.5; 0.25]; [0.5; 0.25]; [0.5; 0.25]]%float |} |}.

Definition _VECM (kw : statsmodels.kwargs) : result statsmodels.VECM :=
  Ok {| statsmodels.fit := fun _ => Ok results |}.

Definition data : list (list float) := [[1; 2]; [3; 4]; [5; 6]]%float.

(** Three rows, two columns, default labels on both axes. *)
Definition y_default : pd.DataFrame pd.label :=
  {| pd.index := {| pd.labels := pd.RangeIndex 3; pd.name := None |};
     pd.columns := pd.RangeIndex 2;
     pd.values := data |}.

(** The same table with columns "A" and "B" over a period index, as in the
    class's docstring example. *)
Definition y_AB : pd.DataFrame pd.label :=
  {| pd.index := {| pd.labels := [pd.LPeriod 420; pd.LPeriod 421; pd.LPeriod 422];
                    pd.name := None |};
     pd.columns := [pd.LStr "A"; pd.LStr "B"];
     pd.values := data |}.

(** The same table with columns "A" and "B" over the default index. *)
Definition y_AB_range : pd.DataFrame pd.label :=
  {| pd.index := {| pd.labels := pd.RangeIndex 3; pd.name := None |};
     pd.columns := [pd.LStr "A"; pd.LStr "B"];
     pd.values := data |}.

(** The same table again, its index named "time". *)
Definition y_named : pd.DataFrame pd.label :=
  {| pd.index := {| pd.labels := pd.labels (pd.index y_AB);
                    pd.name := Some "time" |};
     pd.columns := pd.columns y_AB;
     pd.values := data |}.

Definition defaults : VECM :=
  __init__ PyNone PyNone (PyStr "none") (PyInt 1) (PyInt 1) (PyStr "n")
           (PyInt 0) (PyInt 0) (PyStr "ml") PyNone PyNone.

Definition fitted_on (y : pd.DataFrame pd.label) : VECM :=
  fst (fit _VECM defaults y None).

End Toy.

(** ** Reading the delegate's bounds *)

(** The bounds of the forecast row [k] (step [k + 1] ahead), laid out as the
    inner loop lays them out: for each of [nvars] variable positions, the
    lower and then the upper bound. *)
Definition step_bounds (k : nat) (y_lower y_upper : np.ndarray) (nvars : nat)
  : list float :=
  flat_map (fun v => [nth v (nth k (np.rows y_lower) []) 0%float;
                      nth v (nth k (np.rows y_upper) []) 0%float])
           (seq 0 nvars).

(** The delegate's answer holds bounds for [nvars] variables at the first
    step: both bound arrays have a first row of at least [nvars] entries. *)
Definition has_bounds (nvars : nat)
           (r : result (np.ndarray * np.ndarray * np.ndarray)) : bool :=
  match r with
  | Ok (_, l, u) =>
      match np.rows l, np.rows u with
      | l0 :: _, u0 :: _ =>
          Nat.leb nvars (List.length l0) && Nat.leb nvars (List.length u0)
      | _, _ => false
      end
  | Err _ => false
  end.

(** The values one coverage value contributes to the output row. *)
Definition values_for (ff : statsmodels.VECMResults) (steps : Z)
           (exog_fc : option np.ndarray) (ecfc : pyobj) (nvars : nat)
           (c : float) : list float :=
  match statsmodels.predict_alpha ff steps exog_fc ecfc (PrimFloat.sub 1 c) with
  | Ok (_, l, u) => step_bounds 0 l u nvars
  | Err _ => []
  end.

(** ** Reading the point forecast *)

(** The in-sample array [_predict] reconstructs:
    [(self._y - pd.DataFrame(resid)).values]. *)
Definition insample_array (y : pd.DataFrame pd.label)
           (ff : statsmodels.VECMResults) : np.ndarray :=
  pd.to_numpy (pd.sub y (pd.DataFrame_of_array (statsmodels.resid ff))).

(** The delegate's contract for a point forecast: asked for [steps] steps,
    it returns an array of [steps] rows and [ncols] columns. *)
Definition forecasts (ff : statsmodels.VECMResults) (steps : Z)
           (exog_fc : option np.ndarray) (ecfc : pyobj) (ncols : nat) : bool :=
  match statsmodels.predict ff steps exog_fc ecfc with
  | Ok out =>
      (Z.of_nat (np.nrows out) =? steps) && Nat.eqb (np.ncols out) ncols
  | Err _ => false
  end.

(** The row a requested offset [k] stands for: the k-th row of the forecast
    for [k > 0], and for [k <= 0] the row [-k] places before the last of the
    in-sample array. *)
Definition row_for (outs ins : list (list float)) (k : Z) : list float :=
  if 0 <? k then nth (Z.to_nat (k - 1)) outs []
  else nth (Z.to_nat (Z.of_nat (List.length ins) + k - 1)) ins [].

(** The entry-wise difference of two [n] by [m] tables of rows. *)
Definition elementwise_sub (a b : list (list float)) (n m : nat)
  : list (list float) :=
  map (fun i =>
         map (fun j => PrimFloat.sub (nth j (nth i a []) 0%float)
                                     (nth j (nth i b []) 0%float))
             (seq 0 m))
      (seq 0 n).

(** A table of [n] rows of [m] entries each. *)
Definition has_shape (rows : list (list float)) (n m : nat) : bool :=
  Nat.eqb (List.length rows) n
  && forallb (fun r => Nat.eqb (List.length r) m) rows.

(** ** Further reading aids *)

(** The keyword arguments [_fit] builds for the delegate's constructor. *)
Definition model_kwargs (self : VECM) (y : pd.DataFrame pd.label)
           (X : option (pd.DataFrame pd.label)) : statsmodels.kwargs :=
  {| statsmodels.endog := y;
     statsmodels.exog := X;
     statsmodels.kw_exog_coint := exog_coint self;
     statsmodels.kw_dates := dates self;
     statsmodels.kw_freq := freq self;
     statsmodels.kw_missing := missing self;
     statsmodels.kw_k_ar_diff := k_ar_diff self;
     statsmodels.kw_coint_rank := coint_rank self;
     statsmodels.kw_deterministic := deterministic self;
     statsmodels.kw_seasons := seasons self;
     statsmodels.kw_first_season := first_season self |}.

(** [self.exog_coint_fc = v]: the same instance with another forecast-time
    cointegration regressor. *)
Definition set_exog_coint_fc (self : VECM) (v : pyobj) : VECM :=
  {| dates := dates self; freq := freq self; missing := missing self;
     k_ar_diff := k_ar_diff self; coint_rank := coint_rank self;
     deterministic := deterministic self; seasons := seasons self;
     first_season := first_season self; method := method self;
     exog_coint := exog_coint self; exog_coint_fc := v;
     _is_fitted := _is_fitted self; _y := _y self; cutoff := cutoff self;
     _forecaster := _forecaster self;
     _fitted_forecaster := _fitted_forecaster self |}.

(** The row of [outs ++ ins] that numpy's indexing gives for the requested
    offset [k]: position [k - 1] for [k > 0], and for [k <= 0] the position
    [k - 1] counted back from the end of the whole array. *)
Definition wrapped_row (outs ins : list (list float)) (k : Z) : list float :=
  nth (Z.to_nat (if 0 <? k then k - 1
                 else Z.of_nat (List.length outs + List.length ins) + k - 1))
      (outs ++ ins) [].

(** No training column carries one of the default labels 0, ..., m-1. *)
Definition no_default_label (cols : list pd.label) (m : nat) : bool :=
  forallb (fun x => negb (pd.mem x cols)) (pd.RangeIndex m).

(** Delegates that raise, for running the error paths. *)
Module ToyErr.

(** A constructor that checks the lag order, as the delegate validates the
    configuration: a non-negative integer is accepted, anything else
    raises. *)
Definition _VECM_checked (kw : statsmodels.kwargs) : result statsmodels.VECM :=
  match statsmodels.kw_k_ar_diff kw with
  | PyInt z => if 0 <=? z
               then Ok {| statsmodels.fit := fun _ => Ok Toy.results |}
               else Err ValueError
  | _ => Err TypeError
  end.

(** A model whose estimation only knows the method "ml". *)
Definition _VECM_ml_only (kw : statsmodels.kwargs) : result statsmodels.VECM :=
  Ok {| statsmodels.fit :=
          fun m => match m with
                   | PyStr "ml" => Ok Toy.results
                   | _ => Err (DelegateError "method")
                   end |}.

(** A fitted result that refuses significance levels below 0.25. *)
Definition strict_results : statsmodels.VECMResults :=
  {| statsmodels.predict := statsmodels.predict Toy.results;
     statsmodels.predict_alpha :=
       fun steps exog_fc ecfc alpha =>
         if PrimFloat.ltb alpha 0.25
         then Err (DelegateError "alpha")
         else statsmodels.predict_alpha Toy.results steps exog_fc ecfc alpha;
     statsmodels.resid := statsmodels.resid Toy.results |}.

Definition _VECM_strict (kw : statsmodels.kwargs) : result statsmodels.VECM :=
  Ok {| statsmodels.fit := fun _ => Ok strict_results |}.

Definition with_method (m : string) : VECM :=
  __init__ PyNone PyNone (PyStr "none") (PyInt 1) (PyInt 1) (PyStr "n")
           (PyInt 0) (PyInt 0) (PyStr m) PyNone PyNone.

Definition with_k_ar_diff (k : pyobj) : VECM :=
  __init__ PyNone PyNone (PyStr "none") k (PyInt 1) (PyStr "n")
           (PyInt 0) (PyInt 0) (PyStr "ml") PyNone PyNone.

End ToyErr.

(** The bound the delegate returns for the coverage value [c] at the first
    step, for the variable at position [i]: the lower one, or the upper one
    when [upper] is set. *)
Definition first_step_bound (ff : statsmodels.VECMResults) (steps : Z)
           (exog_fc : option np.ndarray) (ecfc : pyobj) (c : float)
           (upper : bool) (i : nat) : float :=
  match statsmodels.predict_alpha ff steps exog_fc ecfc (PrimFloat.sub 1 c) with
  | Ok (_, l, u) => nth i (nth 0 (np.rows (if upper then u else l)) []) 0%float
  | Err _ => 0%float
  end.

(** * Properties *)

(** ** The logging monad *)

Lemma bind_lift_ok {A B} (a : A) (k : A -> M B) : bind (lift (Ok a)) k = k a.
Proof. unfold bind, lift. destruct (k a); reflexivity. Qed.

Lemma bind_ret {A B} (a : A) (k : A -> M B) : bind (ret a) k = k a.
Proof. apply bind_lift_ok. Qed.

Lemma bind_ok_eq {A B} (l : list call) (a : A) (k : A -> M B) :
  bind (l, Ok a) k = (l ++ calls (k a), outcome (k a)).
Proof. unfold bind. destruct (k a); reflexivity. Qed.

Lemma outcome_bind_ok {A B} (m : M A) (k : A -> M B) (a : A) :
  outcome m = Ok a -> outcome (bind m k) = outcome (k a).
Proof.
  destruct m as [l r]; simpl; intros ->. simpl. destruct (k a); reflexivity.
Qed.

Lemma outcome_bind_inv {A B} (m : M A) (k : A -> M B) (b : B) :
  outcome (bind m k) = Ok b ->
  exists a, outcome m = Ok a /\ outcome (k a) = Ok b.
Proof.
  destruct m as [l [a | e]]; simpl.
  - destruct (k a) eqn:E; simpl; intros ->. exists a. rewrite E. auto.
  - discriminate.
Qed.

Lemma calls_bind_pure {A B} (m : M A) (f : A -> result B) :
  calls (bind m (fun a => lift (f a))) = calls m.
Proof.
  destruct m as [l [a | e]]; simpl; [apply app_nil_r | reflexivity].
Qed.

Lemma outcome_bind_pure {A B} (m : M A) (f : A -> result B) :
  outcome (bind m (fun a => lift (f a))) = rbind (outcome m) f.
Proof. destruct m as [l [a | e]]; reflexivity. Qed.

Lemma bind_call_predict {B} ff steps exog_fc ecfc outs (k : np.ndarray -> M B) :
  statsmodels.predict ff steps exog_fc ecfc = Ok outs ->
  bind (call_predict ff steps exog_fc ecfc) k
  = (PredictCall steps exog_fc ecfc None :: calls (k outs), outcome (k outs)).
Proof.
  intros H. unfold call_predict. rewrite H, bind_ok_eq. reflexivity.
Qed.

Lemma calls_bind_nil {A B} (m : M A) (k : A -> M B) :
  (forall a, calls (k a) = []) -> calls (bind m k) = calls m.
Proof.
  intros H. destruct m as [l [a | e]]; simpl; [| reflexivity].
  specialize (H a). destruct (k a) as [l' r]. simpl in H. subst l'.
  simpl. apply app_nil_r.
Qed.

Lemma calls_lift_bind_nil {A B} (r : result A) (k : A -> M B) :
  (forall a, calls (k a) = []) -> calls (bind (lift r) k) = [].
Proof. intros H. rewrite calls_bind_nil by assumption. reflexivity. Qed.

(** ** Sequences, arrays and frames *)

Lemma mapR_map_ok {A B C} (f : B -> result C) (h : A -> B) (g : A -> C)
      (l : list A) :
  (forall x, In x l -> f (h x) = Ok (g x)) -> mapR f (map h l) = Ok (map g l).
Proof.
  induction l as [| x t IH]; intros H; simpl; [reflexivity |].
  rewrite (H x (or_introl eq_refl)). simpl.
  rewrite IH by (intros; apply H; right; assumption). reflexivity.
Qed.

Lemma norm_index_nonneg (n : nat) (i : Z) :
  0 <= i < Z.of_nat n -> np.norm_index n i = Ok (Z.to_nat i).
Proof.
  intros H. unfold np.norm_index.
  replace (0 <=? i) with true by (symmetry; apply Z.leb_le; lia).
  replace (i <? Z.of_nat n) with true by (symmetry; apply Z.ltb_lt; lia).
  reflexivity.
Qed.

Lemma norm_index_neg (n : nat) (i : Z) :
  - Z.of_nat n <= i < 0 -> np.norm_index n i = Ok (Z.to_nat (Z.of_nat n + i)).
Proof.
  intros H. unfold np.norm_index.
  replace (0 <=? i) with false by (symmetry; apply Z.leb_gt; lia).
  replace (- Z.of_nat n <=? i) with true by (symmetry; apply Z.leb_le; lia).
  replace (i <? 0) with true by (symmetry; apply Z.ltb_lt; lia).
  reflexivity.
Qed.

Lemma item_nonneg {A} (xs : list A) (i : Z) (d : A) :
  0 <= i < Z.of_nat (List.length xs) ->
  np.item xs i = Ok (nth (Z.to_nat i) xs d).
Proof.
  intros H. unfold np.item. rewrite norm_index_nonneg by assumption. simpl.
  destruct (nth_error xs (Z.to_nat i)) eqn:E.
  - erewrite nth_error_nth by eassumption. reflexivity.
  - apply nth_error_None in E. lia.
Qed.

Lemma item_neg {A} (xs : list A) (i : Z) (d : A) :
  - Z.of_nat (List.length xs) <= i < 0 ->
  np.item xs i = Ok (nth (Z.to_nat (Z.of_nat (List.length xs) + i)) xs d).
Proof.
  intros H. unfold np.item. rewrite norm_index_neg by assumption. simpl.
  destruct (nth_error xs _) eqn:E.
  - erewrite nth_error_nth by eassumption. reflexivity.
  - apply nth_error_None in E. lia.
Qed.

Lemma item_nat {A} (xs : list A) (v : nat) (d : A) :
  (v < List.length xs)%nat -> np.item xs (Z.of_nat v) = Ok (nth v xs d).
Proof.
  intros H. rewrite (item_nonneg xs (Z.of_nat v) d) by lia.
  rewrite Nat2Z.id. reflexivity.
Qed.

Lemma item_last {A} (xs : list A) (d : A) :
  xs <> [] -> np.item xs (-1) = Ok (List.last xs d).
Proof.
  intros H. rewrite (item_neg xs (-1) d).
  - f_equal. destruct (exists_last H) as [l [a ->]].
    rewrite last_last, length_app. simpl.
    replace (Z.to_nat (Z.of_nat (List.length l + 1) + -1)) with (List.length l) by lia.
    rewrite app_nth2 by lia. rewrite Nat.sub_diag. reflexivity.
  - destruct xs; [congruence | simpl; lia].
Qed.

Lemma row_concat (outs ins : list (list float)) (n : nat) (k : Z) :
  - Z.of_nat (List.length ins) < k <= Z.of_nat (List.length outs) ->
  np.row {| np.ncols := n; np.rows := outs ++ ins |} (k - 1)
  = Ok (row_for outs ins k).
Proof.
  intros H. unfold np.row, row_for. cbn [np.rows].
  destruct (0 <? k) eqn:E.
  - apply Z.ltb_lt in E.
    rewrite (item_nonneg (outs ++ ins) (k - 1) [])
      by (rewrite length_app; lia).
    rewrite app_nth1 by lia. reflexivity.
  - apply Z.ltb_ge in E.
    rewrite (item_neg (outs ++ ins) (k - 1) [])
      by (rewrite length_app; lia).
    rewrite app_nth2 by (rewrite length_app; lia).
    do 2 f_equal. rewrite length_app. lia.
Qed.

Lemma take_concat (outs ins : list (list float)) (n : nat) (fh : list Z) :
  (forall k, In k fh ->
             - Z.of_nat (List.length ins) < k <= Z.of_nat (List.length outs)) ->
  np.take {| np.ncols := n; np.rows := outs ++ ins |}
          (ForecastingHorizon.to_indexer fh None)
  = Ok {| np.ncols := n; np.rows := map (row_for outs ins) fh |}.
Proof.
  intros H. unfold np.take, ForecastingHorizon.to_indexer.
  rewrite (mapR_map_ok _ _ (row_for outs ins)).
  - reflexivity.
  - intros k Hk. apply row_concat, H, Hk.
Qed.

Lemma take_future (out : np.ndarray) (fh : list Z) :
  (forall k, In k fh -> 0 < k <= Z.of_nat (np.nrows out)) ->
  np.take out (ForecastingHorizon.to_indexer fh None)
  = Ok {| np.ncols := np.ncols out;
          np.rows := map (fun k => nth (Z.to_nat (k - 1)) (np.rows out) []) fh |}.
Proof.
  intros H. unfold np.take, ForecastingHorizon.to_indexer.
  rewrite (mapR_map_ok _ _ (fun k => nth (Z.to_nat (k - 1)) (np.rows out) [])).
  - reflexivity.
  - intros k Hk. unfold np.row. apply item_nonneg.
    specialize (H k Hk). unfold np.nrows in H. lia.
Qed.

Lemma flat_map_length_const {A B} (f : A -> list B) (m : nat) (l : list A) :
  (forall x, In x l -> List.length (f x) = m) ->
  List.length (flat_map f l) = (List.length l * m)%nat.
Proof.
  induction l as [| x t IH]; intros H; simpl; [reflexivity |].
  rewrite length_app, (H x (or_introl eq_refl)).
  rewrite IH by (intros; apply H; right; assumption). reflexivity.
Qed.

Lemma product3_length {A B C} (l1 : list A) (l2 : list B) (l3 : list C) :
  List.length (pd.product3 l1 l2 l3)
  = (List.length l1 * (List.length l2 * List.length l3))%nat.
Proof.
  unfold pd.product3. apply flat_map_length_const. intros a _.
  apply flat_map_length_const. intros b _. apply length_map.
Qed.

Lemma DataFrame_columns {C} (data : np.ndarray) (idx : pd.Index)
      (cols : list C) (tbl : pd.DataFrame C) :
  pd.DataFrame_ data idx cols = Ok tbl ->
  pd.index tbl = idx /\ pd.columns tbl = cols /\ pd.values tbl = np.rows data.
Proof.
  unfold pd.DataFrame_. destruct (_ && _); [| discriminate].
  intros H. injection H as <-. auto.
Qed.

Lemma nth_flat_map_const {A B} (f : A -> list B) (m : nat) (dx : A) (d : B) :
  forall (l : list A) (j r : nat),
    (forall x, In x l -> List.length (f x) = m) ->
    (j < List.length l)%nat -> (r < m)%nat ->
    nth (j * m + r) (flat_map f l) d = nth r (f (nth j l dx)) d.
Proof.
  induction l as [| x t IH]; intros j r H Hj Hr; [simpl in Hj; lia |].
  pose proof (H x (or_introl eq_refl)) as Hx.
  cbn [flat_map]. destruct j as [| j'].
  - simpl. apply app_nth1. lia.
  - cbn [nth]. rewrite app_nth2 by (rewrite Hx; lia).
    replace (S j' * m + r - List.length (f x))%nat with (j' * m + r)%nat
      by (rewrite Hx; lia).
    apply IH; [intros; apply H; right; assumption | simpl in Hj; lia | assumption].
Qed.

Lemma product3_nth {A B C} (l1 : list A) (l2 : list B) (l3 : list C)
      (i j s : nat) (da : A) (db : B) (dc : C) :
  (i < List.length l1)%nat -> (j < List.length l2)%nat ->
  (s < List.length l3)%nat ->
  nth ((i * List.length l2 + j) * List.length l3 + s)
      (pd.product3 l1 l2 l3) (da, db, dc)
  = (nth i l1 da, nth j l2 db, nth s l3 dc).
Proof.
  intros Hi Hj Hs. unfold pd.product3.
  replace ((i * List.length l2 + j) * List.length l3 + s)%nat
    with (i * (List.length l2 * List.length l3)
          + (j * List.length l3 + s))%nat by lia.
  rewrite (nth_flat_map_const _ (List.length l2 * List.length l3) da);
    try assumption.
  - rewrite (nth_flat_map_const _ (List.length l3) db); try assumption.
    + rewrite (nth_indep _ (da, db, dc) ((fun c => (nth i l1 da, nth j l2 db, c)) dc))
        by (rewrite length_map; assumption).
      apply (map_nth (fun c => (nth i l1 da, nth j l2 db, c))).
    + intros b _. apply length_map.
  - intros a _. apply flat_map_length_const. intros b _. apply length_map.
  - nia.
Qed.

Lemma DataFrame_of_rows_single {C} (row : list float) (idx : pd.Index)
      (cols : list C) :
  List.length row = List.length cols ->
  pd.DataFrame_of_rows [row] idx cols
  = Ok {| pd.index := idx; pd.columns := cols;
          pd.values := repeat row (List.length (pd.labels idx)) |}.
Proof.
  intros H. unfold pd.DataFrame_of_rows. cbn [map list_max fold_right].
  rewrite Nat.max_0_r, H, Nat.eqb_refl, Nat.sub_diag. cbn [repeat].
  rewrite app_nil_r. reflexivity.
Qed.

Lemma DataFrame_of_rows_single_inv {C} (row : list float) (idx : pd.Index)
      (cols : list C) (tbl : pd.DataFrame C) :
  pd.DataFrame_of_rows [row] idx cols = Ok tbl ->
  List.length row = List.length cols
  /\ tbl = {| pd.index := idx; pd.columns := cols;
              pd.values := repeat row (List.length (pd.labels idx)) |}.
Proof.
  intros H.
  destruct (Nat.eqb (List.length row) (List.length cols)) eqn:E.
  - apply Nat.eqb_eq in E. rewrite (DataFrame_of_rows_single row idx cols E) in H.
    injection H as <-. auto.
  - exfalso. unfold pd.DataFrame_of_rows in H.
    cbn [map list_max fold_right] in H. rewrite Nat.max_0_r, E in H.
    discriminate.
Qed.

(** ** The horizon *)

Lemma increasing_tail (x : Z) (r : list Z) :
  ForecastingHorizon.increasing (x :: r) = true ->
  ForecastingHorizon.increasing r = true.
Proof.
  simpl. destruct r as [| y r']; [reflexivity |].
  intros H. apply andb_true_iff in H. apply H.
Qed.


Lemma increasing_le_last (fh : list Z) :
  ForecastingHorizon.increasing fh = true ->
  forall k, In k fh -> k <= List.last fh 0.
Proof.
  induction fh as [| x r IH]; intros H k Hin; [contradiction |].
  pose proof (increasing_tail _ _ H) as Ht.
  destruct r as [| y r'].
  - destruct Hin as [<- | []]. simpl. lia.
  - change (List.last (x :: y :: r') 0) with (List.last (y :: r') 0).
    destruct Hin as [<- | Hin].
    + simpl in H. apply andb_true_iff in H. destruct H as [Hlt _].
      apply Z.ltb_lt in Hlt.
      specialize (IH Ht y (or_introl eq_refl)). lia.
    + apply IH; assumption.
Qed.

Lemma valid_nonempty (fh : ForecastingHorizon.t) :
  ForecastingHorizon.valid fh = true -> fh <> [].
Proof. destruct fh; [discriminate | congruence]. Qed.


Lemma valid_getitem_last (fh : ForecastingHorizon.t) :
  ForecastingHorizon.valid fh = true ->
  ForecastingHorizon.getitem fh (-1) = Ok (List.last fh 0).
Proof.
  intros H. unfold ForecastingHorizon.getitem.
  apply item_last, valid_nonempty, H.
Qed.

Lemma fold_max_spec (r : list Z) : forall x,
  (forall k, In k (x :: r) -> k <= fold_left Z.max r x)
  /\ In (fold_left Z.max r x) (x :: r).
Proof.
  induction r as [| y r' IH]; intros x.
  - simpl. split; [intros k [<- | []]; lia | auto].
  - cbn [fold_left]. destruct (IH (Z.max x y)) as [Hge Hin]. split.
    + intros k [<- | [<- | Hk]].
      * specialize (Hge _ (or_introl eq_refl)). lia.
      * specialize (Hge _ (or_introl eq_refl)). lia.
      * apply Hge. right. assumption.
    + destruct Hin as [Hin | Hin].
      * rewrite <- Hin. destruct (Z.max_spec x y) as [[_ ->] | [_ ->]];
          simpl; auto.
      * right. right. assumption.
Qed.

Lemma fold_min_spec (r : list Z) : forall x,
  (forall k, In k (x :: r) -> fold_left Z.min r x <= k)
  /\ In (fold_left Z.min r x) (x :: r).
Proof.
  induction r as [| y r' IH]; intros x.
  - simpl. split; [intros k [<- | []]; lia | auto].
  - cbn [fold_left]. destruct (IH (Z.min x y)) as [Hle Hin]. split.
    + intros k [<- | [<- | Hk]].
      * specialize (Hle _ (or_introl eq_refl)). lia.
      * specialize (Hle _ (or_introl eq_refl)). lia.
      * apply Hle. right. assumption.
    + destruct Hin as [Hin | Hin].
      * rewrite <- Hin. destruct (Z.min_spec x y) as [[_ ->] | [_ ->]];
          simpl; auto.
      * right. right. assumption.
Qed.

Lemma max_spec (fh : ForecastingHorizon.t) :
  fh <> [] ->
  exists mx, ForecastingHorizon.max fh = Ok mx
             /\ In mx fh /\ forall k, In k fh -> k <= mx.
Proof.
  destruct fh as [| x r]; [congruence |]. intros _.
  destruct (fold_max_spec r x) as [Hge Hin].
  exists (fold_left Z.max r x). auto.
Qed.

Lemma min_spec (fh : ForecastingHorizon.t) :
  fh <> [] ->
  exists mn, ForecastingHorizon.min fh = Ok mn
             /\ In mn fh /\ forall k, In k fh -> mn <= k.
Proof.
  destruct fh as [| x r]; [congruence |]. intros _.
  destruct (fold_min_spec r x) as [Hle Hin].
  exists (fold_left Z.min r x). auto.
Qed.

(** ** Subtraction of tables with default labels *)

Lemma label_eqb_refl (a : pd.label) : pd.label_eqb a a = true.
Proof.
  destruct a; simpl; [apply Z.eqb_refl | apply String.eqb_refl | apply Z.eqb_refl].
Qed.

Lemma labels_eqb_refl (l : list pd.label) : pd.labels_eqb l l = true.
Proof.
  induction l as [| a t IH]; simpl; [reflexivity |].
  rewrite label_eqb_refl, IH. reflexivity.
Qed.

Lemma union_same (l : list pd.label) : pd.union l l = l.
Proof. unfold pd.union. rewrite labels_eqb_refl. reflexivity. Qed.

Lemma position_range_from (n : nat) : forall s i,
  (i < n)%nat ->
  pd.position (pd.LInt (Z.of_nat (s + i)))
              (map (fun k => pd.LInt (Z.of_nat k)) (seq s n)) = Some i.
Proof.
  induction n as [| n IH]; intros s i Hi; [lia |].
  cbn [seq map pd.position pd.label_eqb].
  destruct i as [| i].
  - rewrite Nat.add_0_r, Z.eqb_refl. reflexivity.
  - replace (Z.of_nat (s + S i) =? Z.of_nat s) with false
      by (symmetry; apply Z.eqb_neq; lia).
    replace (s + S i)%nat with (S s + i)%nat by lia.
    rewrite IH by lia. reflexivity.
Qed.

Lemma position_range (n i : nat) :
  (i < n)%nat ->
  pd.position (pd.LInt (Z.of_nat i)) (pd.RangeIndex n) = Some i.
Proof. intros H. apply (position_range_from n 0 i H). Qed.

Lemma has_shape_row (rows : list (list float)) (n m i : nat) :
  has_shape rows n m = true -> (i < n)%nat -> List.length (nth i rows []) = m.
Proof.
  unfold has_shape. intros H Hi. apply andb_true_iff in H.
  destruct H as [Hn Hrows]. apply Nat.eqb_eq in Hn.
  rewrite forallb_forall in Hrows.
  apply Nat.eqb_eq, Hrows, nth_In. lia.
Qed.

Lemma cell_default (d : pd.DataFrame pd.label) (n m i j : nat) :
  pd.labels (pd.index d) = pd.RangeIndex n ->
  pd.columns d = pd.RangeIndex m ->
  has_shape (pd.values d) n m = true ->
  (i < n)%nat -> (j < m)%nat ->
  pd.cell d (pd.LInt (Z.of_nat i)) (pd.LInt (Z.of_nat j))
  = Some (nth j (nth i (pd.values d) []) 0%float).
Proof.
  intros Hl Hc Hs Hi Hj. unfold pd.cell.
  rewrite Hl, Hc, (position_range n i Hi), (position_range m j Hj).
  apply nth_error_nth'. rewrite (has_shape_row _ n m i Hs Hi). assumption.
Qed.

Lemma sub_default_labels (y : pd.DataFrame pd.label) (r : np.ndarray)
      (n m : nat) :
  pd.labels (pd.index y) = pd.RangeIndex n ->
  pd.columns y = pd.RangeIndex m ->
  has_shape (pd.values y) n m = true ->
  np.ncols r = m ->
  has_shape (np.rows r) n m = true ->
  pd.to_numpy (pd.sub y (pd.DataFrame_of_array r))
  = {| np.ncols := m;
       np.rows := elementwise_sub (pd.values y) (np.rows r) n m |}.
Proof.
  intros Hl Hc Hs Hrc Hrs.
  assert (Hrn : np.nrows r = n).
  { unfold has_shape in Hrs. apply andb_true_iff in Hrs.
    destruct Hrs as [Hrs _]. apply Nat.eqb_eq in Hrs. exact Hrs. }
  unfold pd.to_numpy, pd.sub.
  cbn [pd.columns pd.values pd.index pd.labels pd.DataFrame_of_array].
  rewrite Hl, Hc, Hrn, Hrc, !union_same.
  f_equal.
  - unfold pd.RangeIndex. rewrite length_map, length_seq. reflexivity.
  - unfold elementwise_sub, pd.RangeIndex. rewrite map_map.
    apply map_ext_in. intros i Hi. apply in_seq in Hi.
    rewrite map_map. apply map_ext_in. intros j Hj. apply in_seq in Hj.
    rewrite (cell_default y n m i j Hl Hc Hs) by lia.
    assert (Hcell : pd.cell (pd.DataFrame_of_array r) (pd.LInt (Z.of_nat i))
                            (pd.LInt (Z.of_nat j))
                    = Some (nth j (nth i (np.rows r) []) 0%float)).
    { apply (cell_default (pd.DataFrame_of_array r) n m i j); try lia.
      - cbn [pd.DataFrame_of_array pd.index pd.labels]. rewrite Hrn. reflexivity.
      - cbn [pd.DataFrame_of_array pd.columns]. rewrite Hrc. reflexivity.
      - exact Hrs. }
    rewrite Hcell. reflexivity.
Qed.

(** ** Construction, fitting and the fitted state *)

(** C9: the constructor stores each of the eleven options as given, for any
    values at all, and [_fit], however it ends, leaves every option as it
    was: it changes nothing but [_forecaster] and [_fitted_forecaster]. *)
Theorem init_stores_and_fit_preserves_config :
  (forall dates0 freq0 missing0 k_ar_diff0 coint_rank0 deterministic0 seasons0
          first_season0 method0 exog_coint0 exog_coint_fc0 : pyobj,
      config (__init__ dates0 freq0 missing0 k_ar_diff0 coint_rank0
                       deterministic0 seasons0 first_season0 method0
                       exog_coint0 exog_coint_fc0)
      = (dates0, freq0, missing0, k_ar_diff0, coint_rank0, deterministic0,
         seasons0, first_season0, method0, exog_coint0, exog_coint_fc0))
  /\ (forall (_VECM : statsmodels.kwargs -> result statsmodels.VECM)
             (self : VECM) (y : pd.DataFrame pd.label)
             (fh : option ForecastingHorizon.t)
             (X : option (pd.DataFrame pd.label)),
         config (fst (_fit _VECM self y fh X)) = config self
         /\ _is_fitted (fst (_fit _VECM self y fh X)) = _is_fitted self
         /\ _y (fst (_fit _VECM self y fh X)) = _y self
         /\ cutoff (fst (_fit _VECM self y fh X)) = cutoff self).
Proof.
  split; [reflexivity |].
  intros _VECM self y fh X. unfold _fit.
  destruct (_VECM _) as [m | e]; [| auto].
  destruct (statsmodels.fit m _) as [r | e]; auto.
Qed.

(** C10: [get_test_params] returns, for any parameter set name, exactly two
    dictionaries, the empty one and the one binding "k_ar_diff" to 2; they
    differ, and the class called with either constructs an instance: all
    defaults for the first, and the defaults with [k_ar_diff = 2] for the
    second. *)
Theorem get_test_params_two_configurations :
  forall parameter_set : string,
    get_test_params parameter_set = [[]; [("k_ar_diff", PyInt 2)]]
    /\ ([] : dict) <> [("k_ar_diff", PyInt 2)]
    /\ map construct (get_test_params parameter_set)
       = [Ok (__init__ PyNone PyNone (PyStr "none") (PyInt 1) (PyInt 1)
                       (PyStr "n") (PyInt 0) (PyInt 0) (PyStr "ml")
                       PyNone PyNone);
          Ok (__init__ PyNone PyNone (PyStr "none") (PyInt 2) (PyInt 1)
                       (PyStr "n") (PyInt 0) (PyInt 0) (PyStr "ml")
                       PyNone PyNone)].
Proof.
  intros. repeat split. discriminate.
Qed.

Lemma last_map_some {A} (l : list A) (d : A) :
  l <> [] -> List.last (map Some l) None = Some (List.last l d).
Proof.
  intros H. destruct (exists_last H) as [l' [a ->]].
  rewrite map_app. simpl. rewrite !last_last. reflexivity.
Qed.

Lemma fit_ok_state _VECM self y X self' :
  fit _VECM self y X = (self', Ok tt) ->
  _is_fitted self' = true
  /\ _y self' = Some y
  /\ cutoff self' = List.last (map Some (pd.labels (pd.index y))) None
  /\ exog_coint_fc self' = exog_coint_fc self
  /\ exists ff, _fitted_forecaster self' = Some ff.
Proof.
  unfold fit, _fit.
  destruct (_VECM _) as [m | e]; [| discriminate].
  cbv zeta. destruct (statsmodels.fit m _) as [r | e]; [| discriminate].
  intros H. injection H as <-. simpl. repeat split. exists r. reflexivity.
Qed.

(** C8: on an instance as the constructor leaves it, whatever its options,
    [predict] and [predict_interval] raise the not-fitted error, which is not
    the attribute error, and call the delegate not at all. *)
Theorem predict_before_fit_raises_not_fitted :
  forall (dates freq missing k_ar_diff coint_rank deterministic seasons
          first_season method exog_coint exog_coint_fc : pyobj)
         (fh : ForecastingHorizon.t) (X : option (pd.DataFrame pd.label))
         (coverage : list float),
    predict (__init__ dates freq missing k_ar_diff coint_rank deterministic
                      seasons first_season method exog_coint exog_coint_fc)
            fh X
    = ([], Err NotFittedError)
    /\ predict_interval
         (__init__ dates freq missing k_ar_diff coint_rank deterministic
                   seasons first_season method exog_coint exog_coint_fc)
         fh X coverage
       = ([], Err NotFittedError)
    /\ NotFittedError <> AttributeError.
Proof.
  intros. repeat split. discriminate.
Qed.

(** ** Point prediction *)

Lemma y_pred_of_mixed self fh X y ff steps outs :
  _y self = Some y ->
  _fitted_forecaster self = Some ff ->
  (exists k, In k fh /\ 0 < k) ->
  (exists k, In k fh /\ k <= 0) ->
  ForecastingHorizon.getitem fh (-1) = Ok steps ->
  statsmodels.predict ff steps (option_map pd.to_numpy X) (exog_coint_fc self)
  = Ok outs ->
  y_pred_of self fh X
  = ([PredictCall steps (option_map pd.to_numpy X) (exog_coint_fc self) None],
     a <-? np.concatenate outs (insample_array y ff) ;; Ok (Some a)).
Proof.
  intros Hy Hff [kp [Hkp Hpos]] [kn [Hkn Hneg]] Hs Hp.
  assert (Hne : fh <> []) by (intros ->; contradiction).
  destruct (max_spec fh Hne) as [mx [Hmx [_ Hge]]].
  destruct (min_spec fh Hne) as [mn [Hmn [_ Hle]]].
  unfold y_pred_of, ForecastingHorizon.to_relative.
  rewrite Hmx, bind_lift_ok.
  replace (mx >? 0) with true
    by (symmetry; apply Z.gtb_lt; specialize (Hge _ Hkp); lia).
  rewrite Hff, Hy. simpl require. rewrite bind_lift_ok, Hs, bind_lift_ok.
  rewrite (bind_call_predict _ _ _ _ _ _ Hp).
  cbn [ret calls outcome fst snd]. rewrite bind_ok_eq.
  rewrite Hmn, bind_lift_ok.
  replace (mn <=? 0) with true
    by (symmetry; apply Z.leb_le; specialize (Hle _ Hkn); lia).
  rewrite !bind_lift_ok, bind_ret. reflexivity.
Qed.

Lemma y_pred_of_future self fh X ff steps outs :
  _fitted_forecaster self = Some ff ->
  fh <> [] ->
  (forall k, In k fh -> 0 < k) ->
  ForecastingHorizon.getitem fh (-1) = Ok steps ->
  statsmodels.predict ff steps (option_map pd.to_numpy X) (exog_coint_fc self)
  = Ok outs ->
  y_pred_of self fh X
  = ([PredictCall steps (option_map pd.to_numpy X) (exog_coint_fc self) None],
     Ok (Some outs)).
Proof.
  intros Hff Hne Hpos Hs Hp.
  destruct (max_spec fh Hne) as [mx [Hmx [Hmxin _]]].
  destruct (min_spec fh Hne) as [mn [Hmn [Hmnin _]]].
  unfold y_pred_of, ForecastingHorizon.to_relative.
  rewrite Hmx, bind_lift_ok.
  replace (mx >? 0) with true
    by (symmetry; apply Z.gtb_lt; specialize (Hpos _ Hmxin); lia).
  rewrite Hff. simpl require. rewrite bind_lift_ok, Hs, bind_lift_ok.
  rewrite (bind_call_predict _ _ _ _ _ _ Hp).
  cbn [ret calls outcome fst snd]. rewrite bind_ok_eq.
  rewrite Hmn, bind_lift_ok.
  replace (mn <=? 0) with false
    by (symmetry; apply Z.leb_gt; specialize (Hpos _ Hmnin); lia).
  rewrite bind_ret. reflexivity.
Qed.

Lemma y_pred_of_insample self fh X y ff :
  _y self = Some y ->
  _fitted_forecaster self = Some ff ->
  fh <> [] ->
  (forall k, In k fh -> k <= 0) ->
  y_pred_of self fh X = ([], Ok (Some (insample_array y ff))).
Proof.
  intros Hy Hff Hne Hneg.
  destruct (max_spec fh Hne) as [mx [Hmx [Hmxin _]]].
  destruct (min_spec fh Hne) as [mn [Hmn [Hmnin _]]].
  unfold y_pred_of, ForecastingHorizon.to_relative.
  rewrite Hmx, bind_lift_ok.
  replace (mx >? 0) with false
    by (symmetry; rewrite Z.gtb_ltb; apply Z.ltb_ge, Hneg, Hmxin).
  rewrite bind_ret, Hmn, bind_lift_ok.
  replace (mn <=? 0) with true
    by (symmetry; apply Z.leb_le, Hneg, Hmnin).
  rewrite Hy, Hff. simpl require. rewrite !bind_lift_ok, bind_ret. reflexivity.
Qed.

Lemma predict_tail self fh X y c0 l a :
  y_pred_of self fh X = (l, Ok (Some a)) ->
  _y self = Some y ->
  cutoff self = Some c0 ->
  _predict self fh X
  = (l, sel <-? np.take a (ForecastingHorizon.to_indexer fh None) ;;
        pd.DataFrame_ sel
                      {| pd.labels := map (ForecastingHorizon.shift c0) fh;
                         pd.name := pd.name (pd.index y) |}
                      (pd.columns y)).
Proof.
  intros Hp Hy Hc. unfold _predict. rewrite Hp, Hy, Hc.
  unfold ForecastingHorizon.to_absolute_index, ForecastingHorizon.to_indexer.
  simpl require. rewrite bind_ok_eq, !bind_lift_ok.
  unfold pd.set_name. cbn [pd.labels pd.name].
  simpl require. rewrite bind_lift_ok.
  rewrite calls_bind_pure, outcome_bind_pure.
  cbn [lift calls outcome fst snd]. rewrite app_nil_r. reflexivity.
Qed.

(** C4: after a [fit] that returned, on a training table with at least one
    row, [predict] with a horizon of positive offsets returns a table,
    provided the delegate's forecast for the last offset has one row per step
    and one column per training column.  The table has one row per requested
    offset (the forecast of that step), the training table's columns, and
    as index the horizon's absolute labels, the cutoff being the last
    training label, in the order of the offsets, under the training index's
    name. *)
Theorem fit_predict_future_horizon :
  forall (_VECM : statsmodels.kwargs -> result statsmodels.VECM)
         (self self' : VECM) (y : pd.DataFrame pd.label)
         (X Xp : option (pd.DataFrame pd.label)) (fh : ForecastingHorizon.t),
    fit _VECM self y X = (self', Ok tt) ->
    pd.labels (pd.index y) <> [] ->
    ForecastingHorizon.valid fh = true ->
    (forall k, In k fh -> 0 < k) ->
    (forall ff, _fitted_forecaster self' = Some ff ->
                forecasts ff (List.last fh 0) (option_map pd.to_numpy Xp)
                          (exog_coint_fc self')
                          (List.length (pd.columns y)) = true) ->
    exists tbl out ff,
      outcome (predict self' fh Xp) = Ok tbl
      /\ List.length (pd.values tbl) = List.length fh
      /\ pd.columns tbl = pd.columns y
      /\ ForecastingHorizon.to_absolute_index fh (cutoff self')
         = Ok {| pd.labels := pd.labels (pd.index tbl); pd.name := None |}
      /\ pd.labels (pd.index tbl)
         = map (ForecastingHorizon.shift
                  (List.last (pd.labels (pd.index y)) (pd.LInt 0))) fh
      /\ pd.name (pd.index tbl) = pd.name (pd.index y)
      /\ _fitted_forecaster self' = Some ff
      /\ statsmodels.predict ff (List.last fh 0) (option_map pd.to_numpy Xp)
                             (exog_coint_fc self') = Ok out
      /\ pd.values tbl
         = map (fun k => nth (Z.to_nat (k - 1)) (np.rows out) []) fh.
Proof.
  intros _VECM self self' y X Xp fh Hfit Hrows Hv Hpos Hdel.
  destruct (fit_ok_state _ _ _ _ _ Hfit) as [Hf [Hy [Hc [_ [ff Hff]]]]].
  rewrite (last_map_some _ (pd.LInt 0) Hrows) in Hc.
  specialize (Hdel ff Hff). unfold forecasts in Hdel.
  destruct (statsmodels.predict ff _ _ _) as [out | e] eqn:Hp; [| discriminate].
  apply andb_true_iff in Hdel. destruct Hdel as [Hnr Hnc].
  apply Z.eqb_eq in Hnr. apply Nat.eqb_eq in Hnc.
  pose proof (y_pred_of_future self' fh Xp ff _ out Hff (valid_nonempty fh Hv)
                Hpos (valid_getitem_last fh Hv) Hp) as Hyp.
  assert (Hinc : ForecastingHorizon.increasing fh = true).
  { unfold ForecastingHorizon.valid in Hv. apply andb_true_iff in Hv. apply Hv. }
  assert (Hrange : forall k, In k fh -> 0 < k <= Z.of_nat (np.nrows out)).
  { intros k Hk. split; [apply Hpos; assumption |].
    rewrite Hnr. apply increasing_le_last; assumption. }
  eexists _, out, ff.
  split.
  - unfold predict, check_is_fitted. rewrite Hf, bind_lift_ok.
    rewrite (predict_tail self' fh Xp y _ _ _ Hyp Hy Hc).
    cbn [outcome snd]. rewrite (take_future out fh Hrange). cbn [rbind].
    unfold pd.DataFrame_, np.nrows. cbn [np.rows np.ncols pd.labels].
    rewrite !length_map, Nat.eqb_refl, Hnc, Nat.eqb_refl. reflexivity.
  - cbn [pd.values pd.columns pd.index pd.labels pd.name].
    rewrite Hc. unfold ForecastingHorizon.to_absolute_index.
    rewrite length_map. repeat split; assumption.
Qed.

Lemma fit_predict_future_horizon_witness :
  exists tbl out ff,
    outcome (predict (Toy.fitted_on Toy.y_AB) [1; 3; 4] None) = Ok tbl
    /\ List.length (pd.values tbl) = List.length [1; 3; 4]
    /\ pd.columns tbl = pd.columns Toy.y_AB
    /\ ForecastingHorizon.to_absolute_index
         [1; 3; 4] (cutoff (Toy.fitted_on Toy.y_AB))
       = Ok {| pd.labels := pd.labels (pd.index tbl); pd.name := None |}
    /\ pd.labels (pd.index tbl)
       = map (ForecastingHorizon.shift
                (List.last (pd.labels (pd.index Toy.y_AB)) (pd.LInt 0)))
             [1; 3; 4]
    /\ pd.name (pd.index tbl) = pd.name (pd.index Toy.y_AB)
    /\ _fitted_forecaster (Toy.fitted_on Toy.y_AB) = Some ff
    /\ statsmodels.predict ff (List.last [1; 3; 4] 0) None
                           (exog_coint_fc (Toy.fitted_on Toy.y_AB)) = Ok out
    /\ pd.values tbl
       = map (fun k => nth (Z.to_nat (k - 1)) (np.rows out) []) [1; 3; 4].
Proof.
  apply (fit_predict_future_horizon
           Toy._VECM Toy.defaults (Toy.fitted_on Toy.y_AB) Toy.y_AB None None
           [1; 3; 4]).
  - reflexivity.
  - discriminate.
  - reflexivity.
  - intros k Hk. simpl in Hk. intuition lia.
  - intros ff Hff. injection Hff as <-. reflexivity.
Defined.

(** For a horizon with both positive and non-positive offsets, when the
    in-sample array has the training table's number of columns, the array
    the row selection reads is the delegate's forecast rows followed by the
    in-sample rows; and the returned table has, at each position, the label
    and the row of the offset requested at that position (a forecast row for
    a positive offset, an in-sample row otherwise), in the order of the
    request, repeated offsets included.  The offsets are any list within
    the rows available on either side. *)
Lemma predict_mixed_horizon_order :
  forall (self : VECM) (fh : ForecastingHorizon.t)
         (X : option (pd.DataFrame pd.label))
         (y : pd.DataFrame pd.label) (ff : statsmodels.VECMResults)
         (c0 : pd.label) (steps : Z) (outs : np.ndarray),
    _y self = Some y ->
    _fitted_forecaster self = Some ff ->
    cutoff self = Some c0 ->
    (exists k, In k fh /\ 0 < k) ->
    (exists k, In k fh /\ k <= 0) ->
    ForecastingHorizon.getitem fh (-1) = Ok steps ->
    statsmodels.predict ff steps (option_map pd.to_numpy X) (exog_coint_fc self)
    = Ok outs ->
    np.ncols outs = List.length (pd.columns y) ->
    np.ncols (insample_array y ff) = List.length (pd.columns y) ->
    (forall k, In k fh ->
               - Z.of_nat (np.nrows (insample_array y ff)) < k
               <= Z.of_nat (np.nrows outs)) ->
    outcome (y_pred_of self fh X)
    = Ok (Some {| np.ncols := np.ncols outs;
                  np.rows := np.rows outs ++ np.rows (insample_array y ff) |})
    /\ outcome (_predict self fh X)
       = Ok {| pd.index :=
                 {| pd.labels := map (ForecastingHorizon.shift c0) fh;
                    pd.name := pd.name (pd.index y) |};
               pd.columns := pd.columns y;
               pd.values :=
                 map (row_for (np.rows outs) (np.rows (insample_array y ff)))
                     fh |}.
Proof.
  intros self fh X y ff c0 steps outs Hy Hff Hc Hpos Hneg Hs Hp Hco Hci Hrange.
  pose proof (y_pred_of_mixed self fh X y ff steps outs Hy Hff Hpos Hneg Hs Hp)
    as Hyp.
  unfold np.concatenate in Hyp.
  replace (Nat.eqb (np.ncols outs) (np.ncols (insample_array y ff))) with true
    in Hyp by (symmetry; apply Nat.eqb_eq; congruence).
  cbn [rbind] in Hyp.
  split; [rewrite Hyp; reflexivity |].
  rewrite (predict_tail self fh X y c0 _ _ Hyp Hy Hc).
  cbn [outcome snd].
  rewrite (take_concat _ _ _ _ Hrange). cbn [rbind].
  unfold pd.DataFrame_, np.nrows. cbn [np.rows np.ncols pd.labels].
  rewrite !length_map, Nat.eqb_refl, Hco, Nat.eqb_refl. reflexivity.
Qed.

(** C5, the code at a training table with columns "A" and "B" and the mixed
    horizon [0; 1]: the aligned subtraction gives an in-sample array of four
    columns against the forecast's two, so the concatenation raises and no
    table is returned.  With default labels the same kind of request works
    as claimed: the array read has the forecast rows first, and the table
    has the rows in the order of the request. *)
Theorem predict_mixed_labelled_columns :
  np.ncols (insample_array Toy.y_AB_range Toy.results) = 4%nat
  /\ statsmodels.predict Toy.results 1 None PyNone
     = Ok {| np.ncols := 2; np.rows := [[2; 3]]%float |}
  /\ y_pred_of (Toy.fitted_on Toy.y_AB_range) [0; 1] None
     = ([PredictCall 1 None PyNone None], Err ValueError)
  /\ predict (Toy.fitted_on Toy.y_AB_range) [0; 1] None
     = ([PredictCall 1 None PyNone None], Err ValueError)
  /\ pd.values Toy.y_AB_range = pd.values Toy.y_default
  /\ y_pred_of (Toy.fitted_on Toy.y_default) [-2; 0; 1; 2] None
     = ([PredictCall 2 None PyNone None],
        Ok (Some {| np.ncols := 2;
                    np.rows := [[2; 3]; [20; 30]]%float
                               ++ [[0.5; 1.75]; [2.5; 3.75]; [4.5; 5.75]]%float |}))
  /\ exists tbl,
      predict (Toy.fitted_on Toy.y_default) [-2; 0; 1; 2] None
      = ([PredictCall 2 None PyNone None], Ok tbl)
      /\ pd.labels (pd.index tbl) = [pd.LInt 0; pd.LInt 2; pd.LInt 3; pd.LInt 4]
      /\ pd.values tbl = [[0.5; 1.75]; [4.5; 5.75]; [2; 3]; [20; 30]]%float.
Proof.
  repeat (split; [reflexivity |]).
  eexists. repeat split.
Qed.

(** X7: the in-sample prediction on a training table with default labels on
    both axes and residuals of the training table's shape: for each requested
    offset [k <= 0] the row [n + k - 1] of the training values minus the
    residuals, entry by entry. *)
Lemma predict_insample_default_labels self fh X y ff c0 (n m : nat) :
  _y self = Some y ->
  _fitted_forecaster self = Some ff ->
  cutoff self = Some c0 ->
  pd.labels (pd.index y) = pd.RangeIndex n ->
  pd.columns y = pd.RangeIndex m ->
  has_shape (pd.values y) n m = true ->
  np.ncols (statsmodels.resid ff) = m ->
  has_shape (np.rows (statsmodels.resid ff)) n m = true ->
  fh <> [] ->
  (forall k, In k fh -> - Z.of_nat n < k <= 0) ->
  _predict self fh X
  = ([],
     Ok {| pd.index := {| pd.labels := map (ForecastingHorizon.shift c0) fh;
                          pd.name := pd.name (pd.index y) |};
           pd.columns := pd.columns y;
           pd.values :=
             map (fun k =>
                    map (fun j =>
                           PrimFloat.sub
                             (nth j (nth (Z.to_nat (Z.of_nat n + k - 1))
                                         (pd.values y) []) 0%float)
                             (nth j (nth (Z.to_nat (Z.of_nat n + k - 1))
                                         (np.rows (statsmodels.resid ff)) [])
                                  0%float))
                        (seq 0 m))
                 fh |}).
Proof.
  intros Hy Hff Hc Hl Hcols Hs Hrc Hrs Hne Hrange.
  pose proof (y_pred_of_insample self fh X y ff Hy Hff Hne
                (fun k Hk => proj2 (Hrange k Hk))) as Hyp.
  unfold insample_array in Hyp.
  rewrite (sub_default_labels y _ n m Hl Hcols Hs Hrc Hrs) in Hyp.
  rewrite (predict_tail self fh X y c0 _ _ Hyp Hy Hc). f_equal.
  assert (Hlen : List.length (elementwise_sub (pd.values y)
                                (np.rows (statsmodels.resid ff)) n m) = n).
  { unfold elementwise_sub. rewrite length_map, length_seq. reflexivity. }
  change (elementwise_sub (pd.values y) (np.rows (statsmodels.resid ff)) n m)
    with ([] ++ elementwise_sub (pd.values y)
                                (np.rows (statsmodels.resid ff)) n m).
  rewrite take_concat
    by (intros k Hk; rewrite Hlen; simpl; apply Hrange, Hk).
  cbn [rbind]. unfold pd.DataFrame_, np.nrows.
  cbn [np.rows np.ncols pd.labels].
  rewrite !length_map, Nat.eqb_refl, Hcols.
  unfold pd.RangeIndex at 1. rewrite length_map, length_seq, Nat.eqb_refl.
  cbn [andb]. do 2 f_equal.
  apply map_ext_in. intros k Hk. specialize (Hrange k Hk).
  unfold row_for. replace (0 <? k) with false by (symmetry; apply Z.ltb_ge; lia).
  rewrite Hlen. unfold elementwise_sub.
  rewrite (nth_indep _ [] (map (fun j => PrimFloat.sub
                                  (nth j (nth 0%nat (pd.values y) []) 0%float)
                                  (nth j (nth 0%nat (np.rows (statsmodels.resid ff)) [])
                                       0%float)) (seq 0 m)))
    by (rewrite length_map, length_seq; lia).
  rewrite (map_nth (fun i => map (fun j => PrimFloat.sub
                                  (nth j (nth i (pd.values y) []) 0%float)
                                  (nth j (nth i (np.rows (statsmodels.resid ff)) [])
                                       0%float)) (seq 0 m))).
  rewrite seq_nth by lia. reflexivity.
Qed.

(** C3, the code at a training table with columns "A" and "B" and the
    in-sample horizon [0]: the subtraction aligns the training columns
    "A", "B" with the residual frame's default columns 0, 1, so the
    reconstructed array has four columns and holds no number; the table
    constructor then raises on the shape.  With default column labels the
    same request returns the training value minus the residual. *)
Theorem predict_insample_labelled_columns :
  y_pred_of (Toy.fitted_on Toy.y_AB_range) [0] None
  = ([], Ok (Some {| np.ncols := 4;
                     np.rows := [[nan; nan; nan; nan];
                                 [nan; nan; nan; nan];
                                 [nan; nan; nan; nan]] |}))
  /\ predict (Toy.fitted_on Toy.y_AB_range) [0] None = ([], Err ValueError)
  /\ pd.values Toy.y_AB_range = pd.values Toy.y_default
  /\ exists tbl,
      predict (Toy.fitted_on Toy.y_default) [0] None = ([], Ok tbl)
      /\ pd.values tbl = [[PrimFloat.sub 5 0.5; PrimFloat.sub 6 0.25]].
Proof.
  split; [reflexivity |].
  split; [reflexivity |].
  split; [reflexivity |].
  eexists. split; reflexivity.
Qed.

(** ** Interval prediction *)

Lemma bounds_at_ok (l u : np.ndarray) (l0 u0 : list float) lt ut :
  np.rows l = l0 :: lt -> np.rows u = u0 :: ut ->
  forall vs,
    (forall v, In v vs -> (v < List.length l0)%nat /\ (v < List.length u0)%nat) ->
    bounds_at l u vs
    = Ok (flat_map (fun v => [nth v l0 0%float; nth v u0 0%float]) vs).
Proof.
  intros Hl Hu. induction vs as [| v rest IH]; intros H; [reflexivity |].
  destruct (H v (or_introl eq_refl)) as [Hvl Hvu].
  cbn [bounds_at flat_map]. unfold np.row. rewrite Hl, Hu.
  change (np.item (l0 :: lt) 0) with (Ok (A := list float) l0).
  change (np.item (u0 :: ut) 0) with (Ok (A := list float) u0).
  cbn [rbind].
  rewrite (item_nat l0 v 0%float Hvl), (item_nat u0 v 0%float Hvu).
  cbn [rbind]. rewrite IH by (intros; apply H; right; assumption).
  reflexivity.
Qed.

Lemma step_bounds_length k l u nvars :
  List.length (step_bounds k l u nvars) = (nvars * 2)%nat.
Proof.
  unfold step_bounds.
  rewrite (flat_map_length_const _ 2%nat) by reflexivity.
  rewrite length_seq. reflexivity.
Qed.

Lemma values_for_length ff steps exog_fc ecfc nvars c :
  has_bounds nvars (statsmodels.predict_alpha ff steps exog_fc ecfc
                                              (PrimFloat.sub 1 c)) = true ->
  List.length (values_for ff steps exog_fc ecfc nvars c) = (nvars * 2)%nat.
Proof.
  unfold values_for, has_bounds.
  destruct (statsmodels.predict_alpha _ _ _ _ _) as [[[p l] u] | e];
    [| discriminate].
  intros _. apply step_bounds_length.
Qed.

Lemma interval_body_ok self fh exog_fc vn c ff steps :
  _fitted_forecaster self = Some ff ->
  ForecastingHorizon.getitem fh (-1) = Ok steps ->
  has_bounds (level_len vn)
             (statsmodels.predict_alpha ff steps exog_fc (exog_coint_fc self)
                                        (PrimFloat.sub 1 c)) = true ->
  interval_body self fh exog_fc vn c
  = ([PredictCall steps exog_fc (exog_coint_fc self) (Some (PrimFloat.sub 1 c))],
     Ok (values_for ff steps exog_fc (exog_coint_fc self) (level_len vn) c)).
Proof.
  intros Hff Hs Hb. unfold interval_body, values_for.
  rewrite Hff. simpl require. rewrite bind_lift_ok, Hs, bind_lift_ok.
  unfold call_predict_alpha, bind.
  destruct (statsmodels.predict_alpha _ _ _ _ _) as [[[p l] u] | e];
    [| discriminate].
  simpl in Hb.
  destruct (np.rows l) as [| l0 lt] eqn:El; [discriminate |].
  destruct (np.rows u) as [| u0 ut] eqn:Eu; [discriminate |].
  apply andb_true_iff in Hb. destruct Hb as [Hl Hu].
  apply Nat.leb_le in Hl, Hu.
  unfold lift. rewrite (bounds_at_ok l u l0 u0 lt ut El Eu).
  - unfold step_bounds. rewrite El, Eu. reflexivity.
  - intros v Hv. apply in_seq in Hv. lia.
Qed.

Lemma interval_loop_ok (body : float -> M (list float))
      (callf : float -> call) (g : float -> list float) :
  forall coverage acc,
    (forall c, In c coverage -> body c = ([callf c], Ok (g c))) ->
    interval_loop body coverage acc
    = (map callf coverage, Ok (acc ++ flat_map g coverage)).
Proof.
  induction coverage as [| c rest IH]; intros acc H.
  - simpl. rewrite app_nil_r. reflexivity.
  - cbn [interval_loop]. rewrite (H c (or_introl eq_refl)).
    unfold bind. rewrite IH by (intros; apply H; right; assumption).
    simpl. rewrite <- app_assoc. reflexivity.
Qed.

(** What the interval operation hands to the table constructor, when the
    training index has no name and the delegate answers every coverage value
    with bounds for all the variables. *)
Lemma interval_frame_args_ok self fh X coverage y ff c0 steps :
  _y self = Some y ->
  pd.name (pd.index y) = None ->
  _fitted_forecaster self = Some ff ->
  cutoff self = Some c0 ->
  ForecastingHorizon.getitem fh (-1) = Ok steps ->
  (forall c, In c coverage ->
             has_bounds (List.length (pd.columns y))
                        (statsmodels.predict_alpha
                           ff steps (option_map pd.to_numpy X)
                           (exog_coint_fc self) (PrimFloat.sub 1 c)) = true) ->
  interval_frame_args self fh X coverage
  = (map (interval_call self steps X) coverage,
     Ok ([flat_map (values_for ff steps (option_map pd.to_numpy X)
                               (exog_coint_fc self)
                               (List.length (pd.columns y))) coverage],
         {| pd.labels := map (ForecastingHorizon.shift c0) fh; pd.name := None |},
         pd.product3 (pd.columns y) coverage ["lower"; "upper"])).
Proof.
  intros Hy Hn Hff Hc Hs Hb. unfold interval_frame_args.
  rewrite Hy. simpl require. rewrite bind_lift_ok.
  unfold int_idx_of, var_names_of. rewrite Hn.
  cbn [pd.MultiIndex_from_product]. rewrite bind_lift_ok.
  unfold ForecastingHorizon.to_relative.
  rewrite (interval_loop_ok _ (interval_call self steps X)
             (values_for ff steps (option_map pd.to_numpy X)
                         (exog_coint_fc self) (List.length (pd.columns y)))).
  - rewrite Hc. simpl. rewrite app_nil_r. reflexivity.
  - intros c Hin.
    apply (interval_body_ok self fh (option_map pd.to_numpy X)
                            (pd.Labels (pd.columns y)) c ff steps Hff Hs).
    apply Hb. assumption.
Qed.

Lemma interval_frame_args_inv self fh X coverage data index int_idx :
  outcome (interval_frame_args self fh X coverage) = Ok (data, index, int_idx) ->
  exists y all_values,
    _y self = Some y
    /\ int_idx_of y coverage = Ok int_idx
    /\ data = [all_values]
    /\ ForecastingHorizon.to_absolute_index fh (cutoff self) = Ok index.
Proof.
  intros H. unfold interval_frame_args in H.
  apply outcome_bind_inv in H. destruct H as [y [Hy H]].
  apply outcome_bind_inv in H. destruct H as [cols [Hcols H]].
  apply outcome_bind_inv in H. destruct H as [all_values [_ H]].
  apply outcome_bind_inv in H. destruct H as [idx [Hidx H]].
  simpl in Hy, Hcols, Hidx, H. injection H as <- <- <-.
  exists y, all_values. repeat split; try assumption.
  destruct (_y self); [injection Hy as ->; reflexivity | discriminate].
Qed.

Lemma interval_row_length ff steps exog_fc ecfc (cols : list pd.label)
      (coverage : list float) :
  (forall c, In c coverage ->
             has_bounds (List.length cols)
                        (statsmodels.predict_alpha ff steps exog_fc ecfc
                                                   (PrimFloat.sub 1 c)) = true) ->
  List.length (flat_map (values_for ff steps exog_fc ecfc (List.length cols))
                        coverage)
  = List.length (pd.product3 cols coverage ["lower"; "upper"]).
Proof.
  intros Hb.
  rewrite (flat_map_length_const _ (List.length cols * 2)%nat)
    by (intros c Hin; apply values_for_length, Hb, Hin).
  rewrite product3_length. cbn [List.length]. lia.
Qed.







(** C7, as the code has it: the claim holds when the training index carries
    no name.  Every table the interval operation then returns has as column
    index the three-level product, variable outermost and side innermost:
    [nvars * ncov * 2] labels, and at position [(i * ncov + j) * 2] and the
    next one the labels (i-th training column, j-th coverage value of the
    caller's list, "lower") and (the same, "upper").  And it does return a
    table, with one row per requested offset, whenever the delegate answers
    every coverage value with bounds for all the variables. *)
Theorem interval_columns_unnamed_index :
  forall (self : VECM) (fh : ForecastingHorizon.t)
         (X : option (pd.DataFrame pd.label)) (coverage : list float)
         (y : pd.DataFrame pd.label),
    _y self = Some y ->
    pd.name (pd.index y) = None ->
    (forall tbl,
        outcome (_predict_interval self fh X coverage) = Ok tbl ->
        List.length (pd.columns tbl)
        = (List.length (pd.columns y) * (List.length coverage * 2))%nat
        /\ forall (i j : nat) (upper : bool),
            (i < List.length (pd.columns y))%nat ->
            (j < List.length coverage)%nat ->
            nth ((i * List.length coverage + j) * 2 + (if upper then 1 else 0))
                (pd.columns tbl) (pd.LInt 0, 0%float, "")
            = (nth i (pd.columns y) (pd.LInt 0), nth j coverage 0%float,
               if upper then "upper" else "lower"))
    /\ (forall (ff : statsmodels.VECMResults) (c0 : pd.label) (steps : Z),
           _fitted_forecaster self = Some ff ->
           cutoff self = Some c0 ->
           ForecastingHorizon.getitem fh (-1) = Ok steps ->
           (forall c, In c coverage ->
                      has_bounds (List.length (pd.columns y))
                                 (statsmodels.predict_alpha
                                    ff steps (option_map pd.to_numpy X)
                                    (exog_coint_fc self) (PrimFloat.sub 1 c))
                      = true) ->
           exists tbl,
             outcome (_predict_interval self fh X coverage) = Ok tbl
             /\ List.length (pd.values tbl) = List.length fh).
Proof.
  intros self fh X coverage y Hy Hn. split.
  - intros tbl H. unfold _predict_interval in H.
    apply outcome_bind_inv in H. destruct H as [[[data index] int_idx] [Ha H]].
    apply interval_frame_args_inv in Ha.
    destruct Ha as [y' [row [Hy' [Hcols [-> _]]]]].
    rewrite Hy in Hy'. injection Hy' as <-.
    unfold int_idx_of, var_names_of in Hcols. rewrite Hn in Hcols.
    cbn [pd.MultiIndex_from_product] in Hcols. injection Hcols as <-.
    cbn [outcome lift snd] in H.
    apply DataFrame_of_rows_single_inv in H. destruct H as [_ ->].
    cbn [pd.columns]. split.
    + rewrite product3_length. reflexivity.
    + intros i j upper Hi Hj.
      change 2%nat with (List.length ["lower"; "upper"]).
      rewrite (product3_nth (pd.columns y) coverage ["lower"; "upper"] i j
                            (if upper then 1 else 0)%nat
                            (pd.LInt 0) 0%float "");
        [| assumption | assumption | destruct upper; simpl; lia].
      destruct upper; reflexivity.
  - intros ff c0 steps Hff Hc Hs Hb.
    pose proof (interval_frame_args_ok self fh X coverage y ff c0 steps
                  Hy Hn Hff Hc Hs Hb) as Ha.
    unfold _predict_interval. rewrite Ha, bind_ok_eq.
    cbn [lift calls outcome fst snd].
    rewrite DataFrame_of_rows_single by (apply interval_row_length, Hb).
    eexists. split; [reflexivity |].
    cbn [pd.values pd.labels]. rewrite repeat_length, length_map. reflexivity.
Qed.

Lemma interval_columns_unnamed_index_witness :
  (forall tbl,
      outcome (_predict_interval (Toy.fitted_on Toy.y_AB) [1; 2] None
                                 [0.5; 0.75]%float) = Ok tbl ->
      List.length (pd.columns tbl)
      = (List.length (pd.columns Toy.y_AB)
         * (List.length [0.5; 0.75]%float * 2))%nat
      /\ forall (i j : nat) (upper : bool),
          (i < List.length (pd.columns Toy.y_AB))%nat ->
          (j < List.length [0.5; 0.75]%float)%nat ->
          nth ((i * List.length [0.5; 0.75]%float + j) * 2
               + (if upper then 1 else 0))
              (pd.columns tbl) (pd.LInt 0, 0%float, "")
          = (nth i (pd.columns Toy.y_AB) (pd.LInt 0),
             nth j [0.5; 0.75]%float 0%float,
             if upper then "upper" else "lower"))
  /\ (forall (ff : statsmodels.VECMResults) (c0 : pd.label) (steps : Z),
         _fitted_forecaster (Toy.fitted_on Toy.y_AB) = Some ff ->
         cutoff (Toy.fitted_on Toy.y_AB) = Some c0 ->
         ForecastingHorizon.getitem [1; 2] (-1) = Ok steps ->
         (forall c, In c [0.5; 0.75]%float ->
                    has_bounds (List.length (pd.columns Toy.y_AB))
                               (statsmodels.predict_alpha
                                  ff steps None
                                  (exog_coint_fc (Toy.fitted_on Toy.y_AB))
                                  (PrimFloat.sub 1 c))
                    = true) ->
         exists tbl,
           outcome (_predict_interval (Toy.fitted_on Toy.y_AB) [1; 2] None
                                      [0.5; 0.75]%float) = Ok tbl
           /\ List.length (pd.values tbl) = List.length [1; 2]).
Proof.
  apply (interval_columns_unnamed_index
           (Toy.fitted_on Toy.y_AB) [1; 2] None [0.5; 0.75]%float Toy.y_AB);
    reflexivity.
Defined.

(** C7 as stated fails: an adapter fitted on a table whose index is named
    "time" does not compute the product over the training columns; the bare
    name is handed to the product, which raises, and no table is returned. *)
Lemma interval_columns_named_index_counterexample :
  _is_fitted (Toy.fitted_on Toy.y_named) = true
  /\ _y (Toy.fitted_on Toy.y_named) = Some Toy.y_named
  /\ int_idx_of Toy.y_named [0.5]%float
     <> Ok (pd.product3 (pd.columns Toy.y_named) [0.5]%float ["lower"; "upper"])
  /\ predict_interval (Toy.fitted_on Toy.y_named) [1] None [0.5]%float
     = ([], Err TypeError).
Proof.
  repeat split; try reflexivity. discriminate.
Qed.

(** C1, the code at the horizon [2] with coverage 0.5: the delegate is asked
    for two steps and answers with bounds for step 1 and for step 2; the row
    the interval operation returns holds the bounds of step 1 (the first row
    of the delegate's arrays), not those of step 2, the final requested
    step. *)
Theorem predict_interval_reads_first_step :
  exists p l u tbl,
    statsmodels.predict_alpha Toy.results 2 None PyNone (PrimFloat.sub 1 0.5)
    = Ok (p, l, u)
    /\ np.rows l = [[1; 2]; [10; 20]]%float
    /\ np.rows u = [[3; 4]; [30; 40]]%float
    /\ _predict_interval (Toy.fitted_on Toy.y_AB) [2] None [0.5]%float
       = ([PredictCall 2 None PyNone (Some 0.5%float)], Ok tbl)
    /\ pd.values tbl = [step_bounds 0 l u 2]
    /\ pd.values tbl = [[1; 3; 2; 4]%float]
    /\ step_bounds 1 l u 2 = [10; 30; 20; 40]%float
    /\ pd.values tbl <> [step_bounds 1 l u 2].
Proof.
  do 4 eexists.
  split; [reflexivity |].
  split; [reflexivity |].
  split; [reflexivity |].
  split; [reflexivity |].
  split; [reflexivity |].
  split; [reflexivity |].
  split; [reflexivity |].
  intros H.
  apply (f_equal (fun v => match v with
                           | (x :: _) :: _ => PrimFloat.eqb x 1
                           | _ => false
                           end)) in H.
  vm_compute in H. discriminate.
Qed.

(** With two coverage values the row is filled coverage value by coverage
    value (all variables for 0.5, then all variables for 0.75), while the
    columns run variable by variable: the third entry, the lower bound of "B"
    at coverage 0.5, stands under the column ("A", 0.75, "lower"). *)
Example interval_row_layout :
  exists tbl,
    outcome (_predict_interval (Toy.fitted_on Toy.y_AB) [1] None
                               [0.5; 0.75]%float) = Ok tbl
    /\ pd.values tbl = [[1; 3; 2; 4; 1; 3; 2; 4]%float]
    /\ nth 2 (pd.columns tbl) (pd.LInt 0, 0%float, "")
       = (pd.LStr "A", 0.75%float, "lower")
    /\ nth 2 (hd [] (pd.values tbl)) 0%float
       = nth 1 (hd [] Toy.lower) 0%float.
Proof.
  eexists. repeat split; reflexivity.
Qed.

(** ** Further properties of fitting *)

Lemma _fit_unfold _VECM self y fh X :
  _fit _VECM self y fh X
  = match _VECM (model_kwargs self y X) with
    | Err e => (self, Err e)
    | Ok m =>
        match statsmodels.fit m (method self) with
        | Err e => (set__forecaster self m, Err e)
        | Ok r => (set__fitted_forecaster (set__forecaster self m) r, Ok tt)
        end
    end.
Proof. reflexivity. Qed.

(** X1: fitting again overwrites.  When [_fit] on new data returns, the
    instance it leaves is the same whether or not an earlier [_fit], on any
    data and however it ended, ran before it. *)
Theorem refit_overwrites :
  forall (_VECM : statsmodels.kwargs -> result statsmodels.VECM)
         (self : VECM) (y1 y2 : pd.DataFrame pd.label)
         (fh1 fh2 : option ForecastingHorizon.t)
         (X1 X2 : option (pd.DataFrame pd.label)),
    snd (_fit _VECM self y2 fh2 X2) = Ok tt ->
    _fit _VECM (fst (_fit _VECM self y1 fh1 X1)) y2 fh2 X2
    = _fit _VECM self y2 fh2 X2.
Proof.
  intros _VECM self y1 y2 fh1 fh2 X1 X2 H.
  rewrite !_fit_unfold in *.
  destruct (_VECM (model_kwargs self y1 X1)) as [m1 | e1]; cbn [fst];
    [| reflexivity].
  destruct (statsmodels.fit m1 (method self)) as [r1 | e1']; cbn [fst].
  - change (model_kwargs (set__fitted_forecaster (set__forecaster self m1) r1)
                         y2 X2) with (model_kwargs self y2 X2).
    change (method (set__fitted_forecaster (set__forecaster self m1) r1))
      with (method self).
    destruct (_VECM (model_kwargs self y2 X2)) as [m2 | e2]; [| discriminate].
    destruct (statsmodels.fit m2 (method self)) as [r2 | e2'];
      [reflexivity | discriminate].
  - change (model_kwargs (set__forecaster self m1) y2 X2)
      with (model_kwargs self y2 X2).
    change (method (set__forecaster self m1)) with (method self).
    destruct (_VECM (model_kwargs self y2 X2)) as [m2 | e2]; [| discriminate].
    destruct (statsmodels.fit m2 (method self)) as [r2 | e2'];
      [reflexivity | discriminate].
Qed.

Lemma refit_overwrites_witness :
  _fit ToyErr._VECM_checked
       (fst (_fit ToyErr._VECM_checked (ToyErr.with_k_ar_diff (PyInt 2))
                  Toy.y_default None None))
       Toy.y_AB None None
  = _fit ToyErr._VECM_checked (ToyErr.with_k_ar_diff (PyInt 2))
         Toy.y_AB None None.
Proof.
  apply (refit_overwrites ToyErr._VECM_checked
           (ToyErr.with_k_ar_diff (PyInt 2)) Toy.y_default Toy.y_AB
           None None None None).
  reflexivity.
Defined.

(** X2: a failing [_fit] raises the delegate's own error and keeps the
    fitted result it found.  Either the constructor raised and the instance
    is untouched, or the constructor returned a model, that model's [fit]
    raised, and [_forecaster] already holds the new model while
    [_fitted_forecaster] is still the earlier one. *)
Theorem failed_fit_keeps_fitted_result :
  forall (_VECM : statsmodels.kwargs -> result statsmodels.VECM)
         (self : VECM) (y : pd.DataFrame pd.label)
         (fh : option ForecastingHorizon.t)
         (X : option (pd.DataFrame pd.label)) (e : exn),
    snd (_fit _VECM self y fh X) = Err e ->
    _fitted_forecaster (fst (_fit _VECM self y fh X)) = _fitted_forecaster self
    /\ ((_VECM (model_kwargs self y X) = Err e
         /\ fst (_fit _VECM self y fh X) = self)
        \/ (exists m,
               _VECM (model_kwargs self y X) = Ok m
               /\ statsmodels.fit m (method self) = Err e
               /\ _forecaster (fst (_fit _VECM self y fh X)) = Some m)).
Proof.
  intros _VECM self y fh X e H. rewrite _fit_unfold in *.
  destruct (_VECM (model_kwargs self y X)) as [m | e0].
  - destruct (statsmodels.fit m (method self)) as [r | e1] eqn:Ef;
      [discriminate |].
    cbn [snd fst] in *. injection H as ->.
    split; [reflexivity |]. right. exists m. auto.
  - cbn [snd fst] in *. injection H as ->. auto.
Qed.

Lemma failed_fit_keeps_fitted_result_witness :
  _fitted_forecaster
    (fst (_fit ToyErr._VECM_ml_only
               (fst (_fit Toy._VECM (ToyErr.with_method "ols")
                          Toy.y_default None None))
               Toy.y_AB None None))
  = Some Toy.results
  /\ ((ToyErr._VECM_ml_only
         (model_kwargs (fst (_fit Toy._VECM (ToyErr.with_method "ols")
                                  Toy.y_default None None))
                       Toy.y_AB None)
       = Err (DelegateError "method")
       /\ fst (_fit ToyErr._VECM_ml_only
                    (fst (_fit Toy._VECM (ToyErr.with_method "ols")
                               Toy.y_default None None))
                    Toy.y_AB None None)
          = fst (_fit Toy._VECM (ToyErr.with_method "ols")
                      Toy.y_default None None))
      \/ (exists m,
             ToyErr._VECM_ml_only
               (model_kwargs (fst (_fit Toy._VECM (ToyErr.with_method "ols")
                                        Toy.y_default None None))
                             Toy.y_AB None)
             = Ok m
             /\ statsmodels.fit m (PyStr "ols") = Err (DelegateError "method")
             /\ _forecaster
                  (fst (_fit ToyErr._VECM_ml_only
                             (fst (_fit Toy._VECM (ToyErr.with_method "ols")
                                        Toy.y_default None None))
                             Toy.y_AB None None))
                = Some m)).
Proof.
  apply (failed_fit_keeps_fitted_result
           ToyErr._VECM_ml_only
           (fst (_fit Toy._VECM (ToyErr.with_method "ols")
                      Toy.y_default None None))
           Toy.y_AB None None (DelegateError "method")).
  reflexivity.
Defined.

(** X3: [_fit] reads neither the horizon nor the option [exog_coint_fc]:
    with another horizon and another value of that option the delegate is
    given the same arguments, the call ends the same way and the same model
    and fitted result are stored. *)
Theorem fit_ignores_horizon_and_exog_coint_fc :
  forall (_VECM : statsmodels.kwargs -> result statsmodels.VECM)
         (self : VECM) (y : pd.DataFrame pd.label)
         (fh fh' : option ForecastingHorizon.t)
         (X : option (pd.DataFrame pd.label)) (v : pyobj),
    model_kwargs (set_exog_coint_fc self v) y X = model_kwargs self y X
    /\ snd (_fit _VECM (set_exog_coint_fc self v) y fh' X)
       = snd (_fit _VECM self y fh X)
    /\ _forecaster (fst (_fit _VECM (set_exog_coint_fc self v) y fh' X))
       = _forecaster (fst (_fit _VECM self y fh X))
    /\ _fitted_forecaster (fst (_fit _VECM (set_exog_coint_fc self v) y fh' X))
       = _fitted_forecaster (fst (_fit _VECM self y fh X))
    /\ exog_coint_fc (fst (_fit _VECM (set_exog_coint_fc self v) y fh' X)) = v.
Proof.
  intros _VECM self y fh fh' X v. rewrite !_fit_unfold.
  change (model_kwargs (set_exog_coint_fc self v) y X)
    with (model_kwargs self y X).
  change (method (set_exog_coint_fc self v)) with (method self).
  split; [reflexivity |].
  destruct (_VECM (model_kwargs self y X)) as [m | e]; [| auto].
  destruct (statsmodels.fit m (method self)) as [r | e]; auto.
Qed.

(** ** Further properties of point prediction *)

Lemma predict_inv self fh X tbl :
  outcome (_predict self fh X) = Ok tbl ->
  exists a y c0 sel,
    outcome (y_pred_of self fh X) = Ok (Some a)
    /\ _y self = Some y
    /\ cutoff self = Some c0
    /\ np.take a (ForecastingHorizon.to_indexer fh None) = Ok sel
    /\ pd.DataFrame_ sel
                     {| pd.labels := map (ForecastingHorizon.shift c0) fh;
                        pd.name := pd.name (pd.index y) |}
                     (pd.columns y) = Ok tbl.
Proof.
  intros H. unfold _predict in H.
  apply outcome_bind_inv in H. destruct H as [y_pred [Hyp H]].
  apply outcome_bind_inv in H. destruct H as [idx [Hidx H]].
  apply outcome_bind_inv in H. destruct H as [y [Hy H]].
  apply outcome_bind_inv in H. destruct H as [a [Ha H]].
  apply outcome_bind_inv in H. destruct H as [sel [Hsel H]].
  cbn [outcome lift snd] in Hidx, Hy, Ha, Hsel, H.
  destruct y_pred as [a' |]; [| discriminate]. injection Ha as ->.
  destruct (_y self) as [y' |]; [| discriminate]. injection Hy as ->.
  unfold ForecastingHorizon.to_absolute_index in Hidx.
  destruct (cutoff self) as [c0 |]; [| discriminate]. injection Hidx as <-.
  exists a, y, c0, sel. repeat split; assumption.
Qed.

Lemma take_shape (a : np.ndarray) (idx : list Z) (sel : np.ndarray) :
  np.take a idx = Ok sel ->
  np.ncols sel = np.ncols a /\ np.nrows sel = List.length idx.
Proof.
  unfold np.take. destruct (mapR (np.row a) idx) as [rs |] eqn:E;
    [| discriminate].
  cbn [rbind]. intros H. injection H as <-. split; [reflexivity |].
  unfold np.nrows. cbn [np.rows].
  clear - E. revert rs E. induction idx as [| i t IH]; simpl; intros rs E.
  - injection E as <-. reflexivity.
  - destruct (np.row a i); simpl in E; [| discriminate].
    destruct (mapR (np.row a) t); simpl in E; [| discriminate].
    injection E as <-. simpl. f_equal. apply IH. reflexivity.
Qed.

(** X4: whatever the horizon (future, in-sample or mixed) and whatever the
    delegate answered, a table [_predict] returns has one row per requested
    offset; its columns are the training columns; its index holds the
    horizon's absolute labels in the order of the request and carries the
    training index's name. *)
Theorem predict_table_shape :
  forall (self : VECM) (fh : ForecastingHorizon.t)
         (X : option (pd.DataFrame pd.label)) (tbl : pd.DataFrame pd.label),
    outcome (_predict self fh X) = Ok tbl ->
    exists y c0,
      _y self = Some y
      /\ cutoff self = Some c0
      /\ List.length (pd.values tbl) = List.length fh
      /\ pd.columns tbl = pd.columns y
      /\ pd.labels (pd.index tbl) = map (ForecastingHorizon.shift c0) fh
      /\ pd.name (pd.index tbl) = pd.name (pd.index y).
Proof.
  intros self fh X tbl H.
  destruct (predict_inv self fh X tbl H)
    as [a [y [c0 [sel [_ [Hy [Hc [Hsel Hd]]]]]]]].
  exists y, c0.
  destruct (take_shape _ _ _ Hsel) as [_ Hrows].
  apply DataFrame_columns in Hd. destruct Hd as [Hi [Hcols Hv]].
  unfold ForecastingHorizon.to_indexer in Hrows. rewrite length_map in Hrows.
  rewrite Hi, Hcols, Hv. cbn [pd.labels pd.name].
  repeat split; assumption.
Qed.

Lemma predict_table_shape_witness :
  exists y c0,
    _y (Toy.fitted_on Toy.y_default) = Some y
    /\ cutoff (Toy.fitted_on Toy.y_default) = Some c0
    /\ List.length
         [[0.5; 1.75]; [4.5; 5.75]; [2; 3]; [20; 30]]%float
       = List.length [-2; 0; 1; 2]
    /\ [pd.LInt 0; pd.LInt 1] = pd.columns y
    /\ [pd.LInt 0; pd.LInt 2; pd.LInt 3; pd.LInt 4]
       = map (ForecastingHorizon.shift c0) [-2; 0; 1; 2]
    /\ None = pd.name (pd.index y).
Proof.
  apply (predict_table_shape
           (Toy.fitted_on Toy.y_default) [-2; 0; 1; 2] None
           {| pd.index := {| pd.labels := [pd.LInt 0; pd.LInt 2; pd.LInt 3;
                                           pd.LInt 4];
                             pd.name := None |};
              pd.columns := [pd.LInt 0; pd.LInt 1];
              pd.values := [[0.5; 1.75]; [4.5; 5.75]; [2; 3]; [20; 30]]%float |}).
  reflexivity.
Defined.

Lemma predict_calls_eq self fh X :
  calls (_predict self fh X) = calls (y_pred_of self fh X).
Proof.
  unfold _predict. apply calls_bind_nil. intros y_pred.
  repeat (apply calls_lift_bind_nil; intros ?). reflexivity.
Qed.

(** X5: one run of [_predict] calls the delegate's forecast routine at most
    once, never with a significance level, and then for [fh[-1]] steps with
    the future exogenous values and the stored [exog_coint_fc]; for a horizon
    with no positive offset it does not call the delegate at all. *)
Theorem predict_calls_delegate_at_most_once :
  forall (self : VECM) (fh : ForecastingHorizon.t)
         (X : option (pd.DataFrame pd.label)),
    (calls (_predict self fh X) = []
     \/ exists steps,
         ForecastingHorizon.getitem fh (-1) = Ok steps
         /\ calls (_predict self fh X)
            = [PredictCall steps (option_map pd.to_numpy X)
                           (exog_coint_fc self) None])
    /\ ((forall k, In k fh -> k <= 0) -> calls (_predict self fh X) = []).
Proof.
  intros self fh X. rewrite predict_calls_eq.
  unfold y_pred_of, ForecastingHorizon.to_relative.
  destruct (ForecastingHorizon.max fh) as [mx | e] eqn:Hmx;
    [| split; [left |]; reflexivity].
  rewrite bind_lift_ok.
  assert (Hin : forall o : option np.ndarray,
             calls (mn <- lift (ForecastingHorizon.min fh) ;;
                    y_pred_insample <-
                      (if mn <=? 0 then
                         fitted <- lift (require AttributeError
                                                 (_fitted_forecaster self)) ;;
                         y <- lift (require TypeError (_y self)) ;;
                         let d := pd.sub y (pd.DataFrame_of_array
                                              (statsmodels.resid fitted)) in
                         ret (Some (pd.to_numpy d))
                       else ret None) ;;
                    lift (match y_pred_insample, o with
                          | Some ins, Some outs =>
                              a <-? np.concatenate outs ins ;; Ok (Some a)
                          | Some ins, None => Ok (Some ins)
                          | None, outs => Ok outs
                          end)) = []).
  { intros o. apply calls_lift_bind_nil. intros mn.
    rewrite calls_bind_pure.
    destruct (mn <=? 0); [| reflexivity].
    apply calls_lift_bind_nil. intros ff.
    apply calls_lift_bind_nil. intros y. reflexivity. }
  rewrite (calls_bind_nil _ _ Hin).
  destruct (mx >? 0) eqn:Hpos.
  - split.
    + destruct (_fitted_forecaster self) as [ff |]; simpl require;
        [| left; reflexivity].
      rewrite bind_lift_ok.
      destruct (ForecastingHorizon.getitem fh (-1)) as [steps | e] eqn:Hs;
        [| left; reflexivity].
      rewrite bind_lift_ok. right. exists steps. split; [reflexivity |].
      unfold call_predict, bind, ret.
      destruct (statsmodels.predict ff steps _ _); reflexivity.
    + intros Hneg. exfalso.
      assert (Hne : fh <> []) by (intros ->; discriminate).
      destruct (max_spec fh Hne) as [mx' [Hmx' [Hmin _]]].
      rewrite Hmx in Hmx'. injection Hmx' as <-.
      apply Z.gtb_lt in Hpos. specialize (Hneg _ Hmin). lia.
  - split; [left |]; reflexivity.
Qed.

Lemma label_eqb_eq (a b : pd.label) : pd.label_eqb a b = true -> a = b.
Proof.
  destruct a, b; simpl; try discriminate; intros H.
  - apply Z.eqb_eq in H. congruence.
  - apply String.eqb_eq in H. congruence.
  - apply Z.eqb_eq in H. congruence.
Qed.

Lemma labels_eqb_eq (a : list pd.label) : forall b,
  pd.labels_eqb a b = true -> a = b.
Proof.
  induction a as [| x a' IH]; destruct b as [| y b']; simpl;
    try discriminate; [reflexivity |].
  intros H. apply andb_true_iff in H. destruct H as [Hx Hr].
  apply label_eqb_eq in Hx. apply IH in Hr. congruence.
Qed.

Lemma insert_sorted_length (x : pd.label) (l : list pd.label) :
  List.length (pd.insert_sorted x l) = S (List.length l).
Proof.
  induction l as [| y t IH]; simpl; [reflexivity |].
  destruct (pd.label_leb x y); simpl; [reflexivity | rewrite IH; reflexivity].
Qed.

Lemma sort_labels_length (l : list pd.label) :
  List.length (pd.sort_labels l) = List.length l.
Proof.
  induction l as [| x t IH]; simpl; [reflexivity |].
  rewrite insert_sorted_length, IH. reflexivity.
Qed.

Lemma filter_all {A} (f : A -> bool) (l : list A) :
  forallb f l = true -> filter f l = l.
Proof.
  induction l as [| x t IH]; simpl; [reflexivity |].
  intros H. apply andb_true_iff in H. destruct H as [Hx Ht].
  rewrite Hx, IH by assumption. reflexivity.
Qed.

Lemma union_no_default_label (cols : list pd.label) (m : nat) :
  no_default_label cols m = true -> (0 < m)%nat ->
  List.length (pd.union cols (pd.RangeIndex m)) = (List.length cols + m)%nat.
Proof.
  intros Hd Hm. unfold pd.union.
  destruct (pd.labels_eqb cols (pd.RangeIndex m)) eqn:E.
  - exfalso. apply labels_eqb_eq in E. unfold no_default_label in Hd.
    rewrite <- E in Hd. destruct cols as [| x t].
    + destruct m; [lia | discriminate].
    + simpl in Hd. rewrite label_eqb_refl in Hd. discriminate.
  - unfold no_default_label in Hd. rewrite (filter_all _ _ Hd).
    assert (Hl : List.length (cols ++ pd.RangeIndex m)
                 = (List.length cols + m)%nat).
    { rewrite length_app. unfold pd.RangeIndex.
      rewrite length_map, length_seq. reflexivity. }
    destruct (pd.comparable _); [rewrite sort_labels_length |]; exact Hl.
Qed.

Lemma y_pred_of_insample_ncols self fh X a :
  outcome (y_pred_of self fh X) = Ok (Some a) ->
  (exists k, In k fh /\ k <= 0) ->
  exists y ff,
    _y self = Some y
    /\ _fitted_forecaster self = Some ff
    /\ np.ncols a = np.ncols (insample_array y ff).
Proof.
  intros H [k [Hk Hneg]].
  assert (Hne : fh <> []) by (intros ->; contradiction).
  destruct (min_spec fh Hne) as [mn [Hmn [_ Hle]]].
  unfold y_pred_of, ForecastingHorizon.to_relative in H.
  apply outcome_bind_inv in H. destruct H as [mx [_ H]].
  apply outcome_bind_inv in H. destruct H as [o [_ H]].
  rewrite Hmn, bind_lift_ok in H.
  replace (mn <=? 0) with true in H
    by (symmetry; apply Z.leb_le; specialize (Hle _ Hk); lia).
  apply outcome_bind_inv in H. destruct H as [i [Hi H]].
  apply outcome_bind_inv in Hi. destruct Hi as [ff [Hff Hi]].
  apply outcome_bind_inv in Hi. destruct Hi as [y [Hy Hi]].
  cbn [outcome lift ret snd] in Hy, Hff, Hi, H.
  injection Hi as <-.
  destruct (_y self) as [y' |]; [| discriminate]. injection Hy as ->.
  destruct (_fitted_forecaster self) as [ff' |]; [| discriminate].
  injection Hff as ->.
  exists y, ff. repeat split.
  fold (insample_array y ff) in H.
  destruct o as [outs |].
  - unfold np.concatenate in H.
    destruct (Nat.eqb (np.ncols outs) (np.ncols (insample_array y ff))) eqn:E;
      [| discriminate].
    cbn [rbind] in H. injection H as <-. cbn [np.ncols].
    apply Nat.eqb_eq. exact E.
  - injection H as <-. reflexivity.
Qed.

(** X6: when no training column is labelled by one of the default labels
    0, ..., m-1 of the residual frame ([m >= 1] its number of columns; so
    for every table whose columns are named by strings), [_predict] returns
    no table for any horizon that contains an in-sample offset: the aligned
    subtraction yields more columns than the training table has, and the run
    ends in an error. *)
Theorem predict_insample_needs_default_column_labels :
  forall (self : VECM) (fh : ForecastingHorizon.t)
         (X : option (pd.DataFrame pd.label))
         (y : pd.DataFrame pd.label) (ff : statsmodels.VECMResults),
    _y self = Some y ->
    _fitted_forecaster self = Some ff ->
    no_default_label (pd.columns y) (np.ncols (statsmodels.resid ff)) = true ->
    (0 < np.ncols (statsmodels.resid ff))%nat ->
    (exists k, In k fh /\ k <= 0) ->
    exists e, outcome (_predict self fh X) = Err e.
Proof.
  intros self fh X y ff Hy Hff Hd Hm Hneg.
  destruct (outcome (_predict self fh X)) as [tbl | e] eqn:H;
    [| exists e; reflexivity].
  exfalso.
  destruct (predict_inv self fh X tbl H)
    as [a [y' [c0 [sel [Hyp [Hy' [_ [Hsel Hdf]]]]]]]].
  rewrite Hy in Hy'. injection Hy' as <-.
  destruct (y_pred_of_insample_ncols self fh X a Hyp Hneg)
    as [y' [ff' [Hy' [Hff' Hn]]]].
  rewrite Hy in Hy'. injection Hy' as <-.
  rewrite Hff in Hff'. injection Hff' as <-.
  destruct (take_shape _ _ _ Hsel) as [Hc _].
  unfold pd.DataFrame_ in Hdf.
  destruct (Nat.eqb (np.nrows sel) _ && Nat.eqb (np.ncols sel) _) eqn:E;
    [| discriminate].
  apply andb_true_iff in E. destruct E as [_ E]. apply Nat.eqb_eq in E.
  rewrite Hc, Hn in E. unfold insample_array, pd.to_numpy, pd.sub in E.
  cbn [np.ncols pd.columns pd.DataFrame_of_array] in E.
  rewrite (union_no_default_label _ _ Hd Hm) in E. lia.
Qed.

Lemma predict_insample_needs_default_column_labels_witness :
  exists e,
    outcome (_predict (Toy.fitted_on Toy.y_AB) [-1; 0; 1] None) = Err e.
Proof.
  apply (predict_insample_needs_default_column_labels
           (Toy.fitted_on Toy.y_AB) [-1; 0; 1] None Toy.y_AB Toy.results);
    try reflexivity.
  - simpl. lia.
  - exists 0. split; [simpl; auto | lia].
Defined.

Lemma predict_insample_default_labels_witness :
  _predict (Toy.fitted_on Toy.y_default) [-2; 0] None
  = ([],
     Ok {| pd.index := {| pd.labels := [pd.LInt 0; pd.LInt 2];
                          pd.name := None |};
           pd.columns := [pd.LInt 0; pd.LInt 1];
           pd.values := [[PrimFloat.sub 1 0.5; PrimFloat.sub 2 0.25];
                         [PrimFloat.sub 5 0.5; PrimFloat.sub 6 0.25]] |}).
Proof.
  apply (predict_insample_default_labels
           (Toy.fitted_on Toy.y_default) [-2; 0] None Toy.y_default
           Toy.results (pd.LInt 2) 3 2);
    try reflexivity.
  - discriminate.
  - intros k Hk. simpl in Hk. intuition lia.
Defined.

Lemma item_error {A} (xs : list A) (i : Z) (e : exn) :
  np.item xs i = Err e -> e = IndexError.
Proof.
  unfold np.item, np.norm_index.
  destruct ((0 <=? i) && (i <? Z.of_nat (List.length xs))); cbn [rbind].
  - destruct (nth_error xs (Z.to_nat i)); congruence.
  - destruct ((- Z.of_nat (List.length xs) <=? i) && (i <? 0)); cbn [rbind].
    + destruct (nth_error xs _); congruence.
    + congruence.
Qed.

Lemma item_below {A} (xs : list A) (i : Z) :
  i < - Z.of_nat (List.length xs) -> np.item xs i = Err IndexError.
Proof.
  intros H. unfold np.item, np.norm_index.
  replace (0 <=? i) with false by (symmetry; apply Z.leb_gt; lia).
  replace (- Z.of_nat (List.length xs) <=? i) with false
    by (symmetry; apply Z.leb_gt; lia).
  reflexivity.
Qed.

Lemma mapR_error {A B} (f : A -> result B) (e0 : exn) (l : list A) :
  (forall x e, f x = Err e -> e = e0) ->
  (exists x, In x l /\ f x = Err e0) ->
  mapR f l = Err e0.
Proof.
  intros Hall. induction l as [| x t IH]; intros [z [Hin Hz]];
    [contradiction |].
  simpl. destruct (f x) as [v | e] eqn:E; cbn [rbind].
  - destruct Hin as [-> | Hin]; [congruence |].
    rewrite IH by (exists z; auto). reflexivity.
  - rewrite (Hall x e E). reflexivity.
Qed.

(** X8: for a horizon of in-sample offsets only, an offset that reaches
    before the first row of the reconstructed in-sample array makes
    [_predict] raise IndexError, without any call to the delegate. *)
Theorem predict_insample_before_first_row :
  forall (self : VECM) (fh : ForecastingHorizon.t)
         (X : option (pd.DataFrame pd.label))
         (y : pd.DataFrame pd.label) (ff : statsmodels.VECMResults)
         (c0 : pd.label),
    _y self = Some y ->
    _fitted_forecaster self = Some ff ->
    cutoff self = Some c0 ->
    (forall k, In k fh -> k <= 0) ->
    (exists k, In k fh /\ k <= - Z.of_nat (np.nrows (insample_array y ff))) ->
    _predict self fh X = ([], Err IndexError).
Proof.
  intros self fh X y ff c0 Hy Hff Hc Hneg [k [Hk Hlow]].
  assert (Hne : fh <> []) by (intros ->; contradiction).
  rewrite (predict_tail self fh X y c0 _ _
             (y_pred_of_insample self fh X y ff Hy Hff Hne Hneg) Hy Hc).
  unfold np.take, ForecastingHorizon.to_indexer.
  rewrite (mapR_error _ IndexError); [reflexivity | |].
  - intros i e. apply item_error.
  - exists (k - 1). split.
    + apply in_map_iff. exists k. split; [reflexivity | assumption].
    + apply item_below. unfold np.nrows in Hlow. lia.
Qed.

Lemma predict_insample_before_first_row_witness :
  _predict (Toy.fitted_on Toy.y_default) [-3; 0] None = ([], Err IndexError).
Proof.
  apply (predict_insample_before_first_row
           (Toy.fitted_on Toy.y_default) [-3; 0] None Toy.y_default
           Toy.results (pd.LInt 2)); try reflexivity.
  - intros k Hk. simpl in Hk. intuition lia.
  - exists (-3). split; [simpl; auto |].
    change (np.nrows (insample_array Toy.y_default Toy.results)) with 3%nat.
    lia.
Defined.

Lemma row_wrapped (outs ins : list (list float)) (n : nat) (k : Z) :
  - Z.of_nat (List.length outs + List.length ins) < k
  <= Z.of_nat (List.length outs) ->
  np.row {| np.ncols := n; np.rows := outs ++ ins |} (k - 1)
  = Ok (wrapped_row outs ins k).
Proof.
  intros H. unfold np.row, wrapped_row. cbn [np.rows].
  destruct (0 <? k) eqn:E.
  - apply Z.ltb_lt in E. apply item_nonneg. rewrite length_app. lia.
  - apply Z.ltb_ge in E.
    rewrite (item_neg (outs ++ ins) (k - 1) [])
      by (rewrite length_app; lia).
    do 2 f_equal. rewrite length_app. lia.
Qed.

(** X9: in a horizon that mixes positive and non-positive offsets, an
    in-sample offset [k] that reaches before the first in-sample row, but not
    before the whole concatenated array, raises nothing: its negative index
    wraps into the forecast rows, and the row returned under the label of
    [k] is the forecast of step [no + ni + k] ([no] forecast rows, [ni]
    in-sample rows). *)
Theorem predict_mixed_horizon_wraps :
  forall (self : VECM) (fh : ForecastingHorizon.t)
         (X : option (pd.DataFrame pd.label))
         (y : pd.DataFrame pd.label) (ff : statsmodels.VECMResults)
         (c0 : pd.label) (steps : Z) (outs : np.ndarray),
    _y self = Some y ->
    _fitted_forecaster self = Some ff ->
    cutoff self = Some c0 ->
    (exists k, In k fh /\ 0 < k) ->
    (exists k, In k fh /\ k <= 0) ->
    ForecastingHorizon.getitem fh (-1) = Ok steps ->
    statsmodels.predict ff steps (option_map pd.to_numpy X) (exog_coint_fc self)
    = Ok outs ->
    np.ncols outs = List.length (pd.columns y) ->
    np.ncols (insample_array y ff) = List.length (pd.columns y) ->
    (forall k, In k fh ->
               - Z.of_nat (np.nrows outs + np.nrows (insample_array y ff)) < k
               <= Z.of_nat (np.nrows outs)) ->
    outcome (_predict self fh X)
    = Ok {| pd.index :=
              {| pd.labels := map (ForecastingHorizon.shift c0) fh;
                 pd.name := pd.name (pd.index y) |};
            pd.columns := pd.columns y;
            pd.values :=
              map (wrapped_row (np.rows outs)
                               (np.rows (insample_array y ff))) fh |}
    /\ (forall k,
           - Z.of_nat (np.nrows outs + np.nrows (insample_array y ff)) < k
           <= - Z.of_nat (np.nrows (insample_array y ff)) ->
           wrapped_row (np.rows outs) (np.rows (insample_array y ff)) k
           = nth (Z.to_nat (Z.of_nat (np.nrows outs)
                            + Z.of_nat (np.nrows (insample_array y ff))
                            + k - 1))
                 (np.rows outs) []).
Proof.
  intros self fh X y ff c0 steps outs Hy Hff Hc Hpos Hneg Hs Hp Hco Hci Hrange.
  split.
  - pose proof (y_pred_of_mixed self fh X y ff steps outs Hy Hff Hpos Hneg Hs Hp)
      as Hyp.
    unfold np.concatenate in Hyp.
    replace (Nat.eqb (np.ncols outs) (np.ncols (insample_array y ff))) with true
      in Hyp by (symmetry; apply Nat.eqb_eq; congruence).
    cbn [rbind] in Hyp.
    rewrite (predict_tail self fh X y c0 _ _ Hyp Hy Hc).
    cbn [outcome snd]. unfold np.take, ForecastingHorizon.to_indexer.
    rewrite (mapR_map_ok _ _ (wrapped_row (np.rows outs)
                                          (np.rows (insample_array y ff))))
      by (intros k Hk; apply row_wrapped, Hrange, Hk).
    cbn [rbind]. unfold pd.DataFrame_, np.nrows.
    cbn [np.rows np.ncols pd.labels].
    rewrite !length_map, Nat.eqb_refl, Hco, Nat.eqb_refl. reflexivity.
  - intros k Hk. unfold wrapped_row, np.nrows in *.
    replace (0 <? k) with false by (symmetry; apply Z.ltb_ge; lia).
    rewrite app_nth1 by lia. f_equal. lia.
Qed.

Lemma predict_mixed_horizon_wraps_witness :
  outcome (_predict (Toy.fitted_on Toy.y_default) [-3; 0; 1; 2] None)
  = Ok {| pd.index :=
            {| pd.labels := [pd.LInt (-1); pd.LInt 2; pd.LInt 3; pd.LInt 4];
               pd.name := None |};
          pd.columns := [pd.LInt 0; pd.LInt 1];
          pd.values := [[20; 30]; [4.5; 5.75]; [2; 3]; [20; 30]]%float |}
  /\ (forall k,
         - Z.of_nat (2 + 3) < k <= - Z.of_nat 3 ->
         wrapped_row [[2; 3]; [20; 30]]%float
                     (np.rows (insample_array Toy.y_default Toy.results)) k
         = nth (Z.to_nat (Z.of_nat 2 + Z.of_nat 3 + k - 1))
               [[2; 3]; [20; 30]]%float []).
Proof.
  apply (predict_mixed_horizon_wraps
           (Toy.fitted_on Toy.y_default) [-3; 0; 1; 2] None
           Toy.y_default Toy.results (pd.LInt 2) 2
           {| np.ncols := 2; np.rows := [[2; 3]; [20; 30]]%float |});
    try reflexivity.
  - exists 2. split; [simpl; auto | lia].
  - exists 0. split; [simpl; auto | lia].
  - intros k Hk.
    change (np.nrows (insample_array Toy.y_default Toy.results)) with 3%nat.
    unfold np.nrows. cbn [np.rows List.length].
    simpl in Hk. intuition lia.
Defined.

(** X10: an error the delegate raises while forecasting is what [_predict]
    raises: after that one call nothing else runs, the in-sample
    reconstruction included. *)
Theorem predict_propagates_delegate_error :
  forall (self : VECM) (fh : ForecastingHorizon.t)
         (X : option (pd.DataFrame pd.label))
         (ff : statsmodels.VECMResults) (steps : Z) (e : exn),
    _fitted_forecaster self = Some ff ->
    (exists k, In k fh /\ 0 < k) ->
    ForecastingHorizon.getitem fh (-1) = Ok steps ->
    statsmodels.predict ff steps (option_map pd.to_numpy X) (exog_coint_fc self)
    = Err e ->
    _predict self fh X
    = ([PredictCall steps (option_map pd.to_numpy X) (exog_coint_fc self) None],
       Err e).
Proof.
  intros self fh X ff steps e Hff [k [Hk Hpos]] Hs Hp.
  assert (Hne : fh <> []) by (intros ->; contradiction).
  destruct (max_spec fh Hne) as [mx [Hmx [_ Hge]]].
  unfold _predict, y_pred_of, ForecastingHorizon.to_relative.
  rewrite Hmx, bind_lift_ok.
  replace (mx >? 0) with true
    by (symmetry; apply Z.gtb_lt; specialize (Hge _ Hk); lia).
  rewrite Hff. simpl require. rewrite bind_lift_ok, Hs, bind_lift_ok.
  unfold call_predict. rewrite Hp. reflexivity.
Qed.

Lemma predict_propagates_delegate_error_witness :
  _predict (Toy.fitted_on Toy.y_default) [0; 5] None
  = ([PredictCall 5 None PyNone None], Err (DelegateError "steps")).
Proof.
  apply (predict_propagates_delegate_error
           (Toy.fitted_on Toy.y_default) [0; 5] None Toy.results 5
           (DelegateError "steps")); try reflexivity.
  exists 5. split; [simpl; auto | lia].
Defined.

(** ** Further properties of interval prediction *)



(** X12: the whole interval operation, when the training index has no name
    and the delegate answers every coverage value with bounds for all the
    variables: one call per coverage value, in order, and then a table with
    one row per requested offset in which every row is the same, the
    first-step bounds laid out coverage value by coverage value. *)
Theorem predict_interval_run :
  forall (self : VECM) (fh : ForecastingHorizon.t)
         (X : option (pd.DataFrame pd.label)) (coverage : list float)
         (y : pd.DataFrame pd.label) (ff : statsmodels.VECMResults)
         (c0 : pd.label) (steps : Z),
    _y self = Some y ->
    pd.name (pd.index y) = None ->
    _fitted_forecaster self = Some ff ->
    cutoff self = Some c0 ->
    ForecastingHorizon.getitem fh (-1) = Ok steps ->
    (forall c, In c coverage ->
               has_bounds (List.length (pd.columns y))
                          (statsmodels.predict_alpha
                             ff steps (option_map pd.to_numpy X)
                             (exog_coint_fc self) (PrimFloat.sub 1 c)) = true) ->
    _predict_interval self fh X coverage
    = (map (interval_call self steps X) coverage,
       Ok {| pd.index := {| pd.labels := map (ForecastingHorizon.shift c0) fh;
                            pd.name := None |};
             pd.columns := pd.product3 (pd.columns y) coverage
                                       ["lower"; "upper"];
             pd.values :=
               repeat (flat_map (values_for ff steps (option_map pd.to_numpy X)
                                            (exog_coint_fc self)
                                            (List.length (pd.columns y)))
                                coverage)
                      (List.length fh) |}).
Proof.
  intros self fh X coverage y ff c0 steps Hy Hn Hff Hc Hs Hb.
  unfold _predict_interval.
  rewrite (interval_frame_args_ok self fh X coverage y ff c0 steps
             Hy Hn Hff Hc Hs Hb).
  rewrite bind_ok_eq. cbn [lift calls outcome fst snd]. rewrite app_nil_r.
  rewrite DataFrame_of_rows_single by (apply interval_row_length, Hb).
  cbn [pd.labels]. rewrite length_map. reflexivity.
Qed.

Lemma predict_interval_run_witness :
  _predict_interval (Toy.fitted_on Toy.y_AB) [1; 2] None [0.5; 0.75]%float
  = ([PredictCall 2 None PyNone (Some 0.5%float);
      PredictCall 2 None PyNone (Some 0.25%float)],
     Ok {| pd.index := {| pd.labels := [pd.LPeriod 423; pd.LPeriod 424];
                          pd.name := None |};
           pd.columns := pd.product3 [pd.LStr "A"; pd.LStr "B"]
                                     [0.5; 0.75]%float ["lower"; "upper"];
           pd.values := [[1; 3; 2; 4; 1; 3; 2; 4];
                         [1; 3; 2; 4; 1; 3; 2; 4]]%float |}).
Proof.
  apply (predict_interval_run
           (Toy.fitted_on Toy.y_AB) [1; 2] None [0.5; 0.75]%float
           Toy.y_AB Toy.results (pd.LPeriod 422) 2); reflexivity.
Defined.

(** X13: when the training index carries a name, [_predict_interval] raises
    TypeError for every horizon and every coverage list, before any call to
    the delegate: the name, a string, is handed to the column product in
    place of the list of variables. *)
Theorem predict_interval_named_index_raises :
  forall (self : VECM) (fh : ForecastingHorizon.t)
         (X : option (pd.DataFrame pd.label)) (coverage : list float)
         (y : pd.DataFrame pd.label) (s : string),
    _y self = Some y ->
    pd.name (pd.index y) = Some s ->
    _predict_interval self fh X coverage = ([], Err TypeError).
Proof.
  intros self fh X coverage y s Hy Hn.
  unfold _predict_interval, interval_frame_args, int_idx_of, var_names_of.
  rewrite Hy. simpl require. rewrite bind_lift_ok, Hn. reflexivity.
Qed.

Lemma predict_interval_named_index_raises_witness :
  _predict_interval (Toy.fitted_on Toy.y_named) [1; 2] None [0.5; 0.75]%float
  = ([], Err TypeError).
Proof.
  apply (predict_interval_named_index_raises
           (Toy.fitted_on Toy.y_named) [1; 2] None [0.5; 0.75]%float
           Toy.y_named "time"); reflexivity.
Defined.

Lemma interval_loop_error (body : float -> M (list float))
      (callf : float -> call) (g : float -> list float) (e : exn)
      (c : float) (post : list float) :
  body c = ([callf c], Err e) ->
  forall pre acc,
    (forall c', In c' pre -> body c' = ([callf c'], Ok (g c'))) ->
    interval_loop body (pre ++ c :: post) acc
    = (map callf (pre ++ [c]), Err e).
Proof.
  intros Hc. induction pre as [| c' pre' IH]; intros acc H.
  - cbn [app interval_loop map]. rewrite Hc. reflexivity.
  - cbn [app interval_loop map]. rewrite (H c' (or_introl eq_refl)).
    rewrite bind_ok_eq, IH by (intros; apply H; right; assumption).
    reflexivity.
Qed.

(** X14: the first coverage value for which the delegate raises ends
    [_predict_interval] with the delegate's error: the delegate was called
    for the coverage values before it and for it, in order, and is not
    called for those after it. *)
Theorem predict_interval_stops_at_first_delegate_error :
  forall (self : VECM) (fh : ForecastingHorizon.t)
         (X : option (pd.DataFrame pd.label))
         (pre post : list float) (c : float)
         (y : pd.DataFrame pd.label) (ff : statsmodels.VECMResults)
         (steps : Z) (e : exn),
    _y self = Some y ->
    pd.name (pd.index y) = None ->
    _fitted_forecaster self = Some ff ->
    ForecastingHorizon.getitem fh (-1) = Ok steps ->
    (forall c', In c' pre ->
                has_bounds (List.length (pd.columns y))
                           (statsmodels.predict_alpha
                              ff steps (option_map pd.to_numpy X)
                              (exog_coint_fc self) (PrimFloat.sub 1 c'))
                = true) ->
    statsmodels.predict_alpha ff steps (option_map pd.to_numpy X)
                              (exog_coint_fc self) (PrimFloat.sub 1 c)
    = Err e ->
    _predict_interval self fh X (pre ++ c :: post)
    = (map (interval_call self steps X) (pre ++ [c]), Err e).
Proof.
  intros self fh X pre post c y ff steps e Hy Hn Hff Hs Hb He.
  unfold _predict_interval, interval_frame_args.
  rewrite Hy. simpl require. rewrite bind_lift_ok.
  unfold int_idx_of, var_names_of. rewrite Hn.
  cbn [pd.MultiIndex_from_product]. rewrite bind_lift_ok.
  unfold ForecastingHorizon.to_relative.
  rewrite (interval_loop_error _ (interval_call self steps X)
             (values_for ff steps (option_map pd.to_numpy X)
                         (exog_coint_fc self) (List.length (pd.columns y)))
             e c post).
  - reflexivity.
  - unfold interval_body. rewrite Hff. simpl require.
    rewrite bind_lift_ok, Hs, bind_lift_ok.
    unfold call_predict_alpha. rewrite He. reflexivity.
  - intros c' Hin.
    apply (interval_body_ok self fh (option_map pd.to_numpy X)
                            (pd.Labels (pd.columns y)) c' ff steps Hff Hs).
    apply Hb. assumption.
Qed.

Lemma predict_interval_stops_at_first_delegate_error_witness :
  _predict_interval (fst (fit ToyErr._VECM_strict Toy.defaults Toy.y_AB None))
                    [1] None ([0.5] ++ 0.875 :: [0.75])%float
  = (map (interval_call
            (fst (fit ToyErr._VECM_strict Toy.defaults Toy.y_AB None)) 1 None)
         ([0.5] ++ [0.875])%float,
     Err (DelegateError "alpha")).
Proof.
  apply (predict_interval_stops_at_first_delegate_error
           (fst (fit ToyErr._VECM_strict Toy.defaults Toy.y_AB None))
           [1] None [0.5%float] [0.75%float] 0.875%float
           Toy.y_AB ToyErr.strict_results 1 (DelegateError "alpha"));
    try reflexivity.
  intros c' Hc. simpl in Hc. destruct Hc as [<- | []]. reflexivity.
Defined.

Lemma step_bounds_nth (l u : np.ndarray) (nvars i : nat) (upper : bool) :
  (i < nvars)%nat ->
  nth (i * 2 + (if upper then 1 else 0)) (step_bounds 0 l u nvars) 0%float
  = nth i (nth 0 (np.rows (if upper then u else l)) []) 0%float.
Proof.
  intros Hi. unfold step_bounds.
  rewrite (nth_flat_map_const _ 2%nat 0%nat);
    [| reflexivity | rewrite length_seq; assumption | destruct upper; lia].
  rewrite seq_nth by assumption. destruct upper; reflexivity.
Qed.

(** X15: where the interval operation puts a bound and where it puts its
    label.  In the single row, the bound of variable [i] for the [j]-th
    coverage value stands at position [(j * nvars + i) * 2] (lower) and the
    next one (upper): the row runs coverage value by coverage value.  In the
    column index, the label (variable [i], [j]-th coverage value, side)
    stands at position [(i * ncov + j) * 2] and the next one: the columns run
    variable by variable.  The two agree for one coverage value or one
    variable; otherwise values stand under labels of other variables. *)
Theorem interval_values_and_labels_positions :
  forall (self : VECM) (fh : ForecastingHorizon.t)
         (X : option (pd.DataFrame pd.label)) (coverage : list float)
         (y : pd.DataFrame pd.label) (ff : statsmodels.VECMResults)
         (c0 : pd.label) (steps : Z),
    _y self = Some y ->
    pd.name (pd.index y) = None ->
    _fitted_forecaster self = Some ff ->
    cutoff self = Some c0 ->
    ForecastingHorizon.getitem fh (-1) = Ok steps ->
    (forall c, In c coverage ->
               has_bounds (List.length (pd.columns y))
                          (statsmodels.predict_alpha
                             ff steps (option_map pd.to_numpy X)
                             (exog_coint_fc self) (PrimFloat.sub 1 c)) = true) ->
    exists row index cols,
      outcome (interval_frame_args self fh X coverage)
      = Ok ([row], index, cols)
      /\ forall (i j : nat) (upper : bool),
          (i < List.length (pd.columns y))%nat ->
          (j < List.length coverage)%nat ->
          nth ((j * List.length (pd.columns y) + i) * 2
               + (if upper then 1 else 0)) row 0%float
          = first_step_bound ff steps (option_map pd.to_numpy X)
                             (exog_coint_fc self) (nth j coverage 0%float)
                             upper i
          /\ nth ((i * List.length coverage + j) * 2
                  + (if upper then 1 else 0)) cols (pd.LInt 0, 0%float, "")
             = (nth i (pd.columns y) (pd.LInt 0), nth j coverage 0%float,
                if upper then "upper" else "lower").
Proof.
  intros self fh X coverage y ff c0 steps Hy Hn Hff Hc Hs Hb.
  rewrite (interval_frame_args_ok self fh X coverage y ff c0 steps
             Hy Hn Hff Hc Hs Hb).
  eexists _, _, _. split; [reflexivity |].
  intros i j upper Hi Hj. split.
  - replace ((j * List.length (pd.columns y) + i) * 2
             + (if upper then 1 else 0))%nat
      with (j * (List.length (pd.columns y) * 2)
            + (i * 2 + (if upper then 1 else 0)))%nat by lia.
    rewrite (nth_flat_map_const _ (List.length (pd.columns y) * 2) 0%float);
      [| intros c Hin; apply values_for_length, Hb, Hin
       | assumption | destruct upper; lia].
    unfold values_for, first_step_bound.
    pose proof (Hb _ (nth_In coverage 0%float Hj)) as Hbj.
    destruct (statsmodels.predict_alpha ff steps _ _ _) as [[[p l] u] | e];
      [| discriminate].
    apply step_bounds_nth. assumption.
  - change 2%nat with (List.length ["lower"; "upper"]).
    rewrite (product3_nth (pd.columns y) coverage ["lower"; "upper"] i j
                          (if upper then 1 else 0)%nat
                          (pd.LInt 0) 0%float "");
      [| assumption | assumption | destruct upper; simpl; lia].
    destruct upper; reflexivity.
Qed.

Lemma interval_values_and_labels_positions_witness :
  exists row index cols,
    outcome (interval_frame_args (Toy.fitted_on Toy.y_AB) [1] None
                                 [0.5; 0.75]%float)
    = Ok ([row], index, cols)
    /\ forall (i j : nat) (upper : bool),
        (i < List.length (pd.columns Toy.y_AB))%nat ->
        (j < List.length [0.5; 0.75]%float)%nat ->
        nth ((j * List.length (pd.columns Toy.y_AB) + i) * 2
             + (if upper then 1 else 0)) row 0%float
        = first_step_bound Toy.results 1 None
                           (exog_coint_fc (Toy.fitted_on Toy.y_AB))
                           (nth j [0.5; 0.75]%float 0%float) upper i
        /\ nth ((i * List.length [0.5; 0.75]%float + j) * 2
                + (if upper then 1 else 0)) cols (pd.LInt 0, 0%float, "")
           = (nth i (pd.columns Toy.y_AB) (pd.LInt 0),
              nth j [0.5; 0.75]%float 0%float,
              if upper then "upper" else "lower").
Proof.
  apply (interval_values_and_labels_positions
           (Toy.fitted_on Toy.y_AB) [1] None [0.5; 0.75]%float
           Toy.y_AB Toy.results (pd.LPeriod 422) 1); reflexivity.
Defined.
